(** * Perfect_Trade backend: shared infrastructure

    A shallow embedding of the Go packages [errors], [database], [server]
    and [config] under [internal/shared], and the properties of their
    transaction, pool, lifecycle, classification and environment code.

    Conventions of the embedding:
    - a Go interface value that may be [nil] is an [option]; [None] is [nil];
    - a Go [int] or [time.Duration] is a [Z];
    - calls into pgx, net/http and the logger act on an explicit world that
      is threaded through the code, and every such call is recorded in a
      trace in program order;
    - a Go function that may panic, or end its goroutine, returns an
      [outcome]. *)

From Stdlib Require Import ZArith Lia Ascii String.
From stdpp Require Import base decidable option list strings pretty gmap.

Local Open Scope Z_scope.
Local Open Scope string_scope.
Local Open Scope list_scope.

(** ** Package errors: sentinels, wrapping and [errors.Is] *)

Module Errors.

(** Go's error values, as far as this program builds and inspects them.
    [errors.New] returns a pointer to an [errorString]; two such values
    are the same error exactly when they are the same pointer, whatever
    their text, so the constructor carries the address.  [fmt.Errorf] with
    one [%w] verb returns a pointer to a [wrapError] holding the formatted
    message and the wrapped error; every [fmt.Errorf] of this repository is
    of that kind.  Callers may hand in errors that wrap several errors at
    once: [fmt.Errorf] with several [%w] returns a [wrapErrors] and
    [errors.Join] a [joinError], both a text with the list of wrapped
    errors behind [Unwrap() []error]; [wrapErrors] stands for both.
    Errors of other packages (pgx, net/http, context) are values of these
    shapes at other addresses.  Error types with an [Is] method of their
    own are not modelled. *)
#[warnings="-register-all"] Inductive error : Type :=
  | errorString (addr : N) (s : string)
  | wrapError (msg : string) (err : error)
  | wrapErrors (msg : string) (errs : list error).

(** The [Error()] method. *)
Definition Error (e : error) : string :=
  match e with
  | errorString _ s => s
  | wrapError msg _ => msg
  | wrapErrors msg _ => msg
  end.

(** The [Unwrap() error] method, as [errors.Unwrap] calls it; an
    [errorString] has none, and an error over several errors has
    [Unwrap() []error] instead. *)
Definition Unwrap (e : error) : option error :=
  match e with
  | errorString _ _ => None
  | wrapError _ err => Some err
  | wrapErrors _ _ => None
  end.

(** [fmt.Errorf(pre + "%w" + post, err)] for a format whose other verbs
    have already been rendered into [pre] and [post]. *)
Definition Errorf (pre : string) (err : error) (post : string) : error :=
  wrapError (pre +:+ Error err +:+ post) err.

(** [fmt.Errorf(pre + "%w" + mid + "%w" + post, err1, err2)]. *)
Definition Errorf2 (pre : string) (err1 : error) (mid : string) (err2 : error)
    (post : string) : error :=
  wrapErrors (pre +:+ Error err1 +:+ mid +:+ Error err2 +:+ post) [err1; err2].

(** The texts of the errors, one per line. *)
Fixpoint join_lines (errs : list error) : string :=
  match errs with
  | [] => ""
  | [e] => Error e
  | e :: rest => Error e +:+ String (Ascii.ascii_of_nat 10) EmptyString +:+ join_lines rest
  end.

(** [errors.Join]: nil values are dropped; nil if nothing is left. *)
Definition errors_Join (errs : list (option error)) : option error :=
  match omap id errs with
  | [] => None
  | kept => Some (wrapErrors (join_lines kept) kept)
  end.

(** [err == target] on two non-nil interface values: pointer equality.  A
    sentinel is identified by its address.  The addresses of wrappers are
    not tracked; a wrapper is identified by its contents, which is exact
    whenever the target is a sentinel, the only targets of this package. *)
Fixpoint same_error (e t : error) : bool :=
  match e, t with
  | errorString a _, errorString b _ => N.eqb a b
  | wrapError m e', wrapError n t' => String.eqb m n && same_error e' t'
  | wrapErrors m es, wrapErrors n ts =>
      String.eqb m n &&
      (fix same_errors (es ts : list error) : bool :=
         match es, ts with
         | [], [] => true
         | e' :: es', t' :: ts' => same_error e' t' && same_errors es' ts'
         | _, _ => false
         end) es ts
  | _, _ => false
  end.

(** The loop of [errors.Is]: compare, then follow [Unwrap() error], or
    try the errors behind [Unwrap() []error] from the first on. *)
Fixpoint errors_is (err target : error) : bool :=
  same_error err target ||
  match err with
  | errorString _ _ => false
  | wrapError _ inner => errors_is inner target
  | wrapErrors _ errs => existsb (fun inner => errors_is inner target) errs
  end.

(** [errors.Is], with its guard for nil arguments, and the package's [Is]
    that forwards to it. *)
Definition errors_Is (err target : option error) : bool :=
  match err, target with
  | None, None => true
  | None, Some _ | Some _, None => false
  | Some e, Some t => errors_is e t
  end.

Definition Is (err target : option error) : bool := errors_Is err target.

(** The sentinels, one [errors.New] each, hence eleven distinct addresses. *)
Definition ErrValidation    : error := errorString 1 "validation failed".
Definition ErrNotFound      : error := errorString 2 "resource not found".
Definition ErrAlreadyExists : error := errorString 3 "resource already exists".
Definition ErrInvalidInput  : error := errorString 4 "invalid input".
Definition ErrBusinessRule  : error := errorString 5 "business rule violation".
Definition ErrDatabase      : error := errorString 6 "database error".
Definition ErrTransaction   : error := errorString 7 "transaction error".
Definition ErrExternal      : error := errorString 8 "external service error".
Definition ErrInternal      : error := errorString 9 "internal error".
Definition ErrUnauthorized  : error := errorString 10 "unauthorized".
Definition ErrForbidden     : error := errorString 11 "forbidden".

(** The three groups of the [var] block, as its comments name them. *)
Definition domain_errors : list error :=
  [ErrValidation; ErrNotFound; ErrAlreadyExists; ErrInvalidInput; ErrBusinessRule].
Definition infrastructure_errors : list error :=
  [ErrDatabase; ErrTransaction; ErrExternal; ErrInternal].
Definition auth_errors : list error := [ErrUnauthorized; ErrForbidden].

(** An error is of the infrastructure kind when it is, or wraps, one of
    the sentinels of that group. *)
Definition is_infrastructure (err : option error) : bool :=
  existsb (fun s => Is err (Some s)) infrastructure_errors.

(** [Wrap]: nil stays nil, anything else gets the message in front. *)
Definition Wrap (err : option error) (message : string) : option error :=
  match err with
  | None => None
  | Some e => Some (Errorf (message +:+ ": ") e "")
  end.

(** [Wrapf]: as [Wrap], with the message rendered by [fmt.Sprintf], which
    is handed in as [Sprintf]. *)
Definition Wrapf {A : Type} (Sprintf : string -> list A -> string)
    (err : option error) (format : string) (args : list A) : option error :=
  match err with
  | None => None
  | Some e => Some (Errorf (Sprintf format args +:+ ": ") e "")
  end.

(** net/http status codes used by the classifier. *)
Definition StatusBadRequest : Z := 400.
Definition StatusUnauthorized : Z := 401.
Definition StatusForbidden : Z := 403.
Definition StatusNotFound : Z := 404.
Definition StatusConflict : Z := 409.
Definition StatusInternalServerError : Z := 500.

(** [err.Error()] on a possibly nil interface; the classifier only calls
    it after a successful [Is], where [err] is not nil. *)
Definition error_text (err : option error) : string :=
  match err with
  | Some e => Error e
  | None => ""
  end.

(** [classifyError]: the [switch] tries its cases from the top. *)
Definition classifyError (err : option error) : Z * string * string :=
  if Is err (Some ErrValidation) then
    (StatusBadRequest, "VALIDATION_ERROR", error_text err)
  else if Is err (Some ErrNotFound) then
    (StatusNotFound, "NOT_FOUND", error_text err)
  else if Is err (Some ErrAlreadyExists) then
    (StatusConflict, "CONFLICT", error_text err)
  else if Is err (Some ErrInvalidInput) then
    (StatusBadRequest, "INVALID_INPUT", error_text err)
  else if Is err (Some ErrBusinessRule) then
    (StatusBadRequest, "BUSINESS_RULE_VIOLATION", error_text err)
  else if Is err (Some ErrUnauthorized) then
    (StatusUnauthorized, "UNAUTHORIZED", "Authentication required")
  else if Is err (Some ErrForbidden) then
    (StatusForbidden, "FORBIDDEN", "Access denied")
  else
    (StatusInternalServerError, "INTERNAL_ERROR", "An internal error occurred").

(** The JSON body. *)
Record ErrorResponse : Type := {
  resp_Error : string;
  resp_Code : string
}.

(** What [WriteError] reads of the request. *)
Record Request : Type := {
  URL_Path : string;
  Method : string
}.

(** The response writer: headers set so far, the status line once written
    (a later [WriteHeader] does not replace it), and the values encoded
    into the body. *)
Record ResponseWriter : Type := {
  Header : gmap string string;
  status_written : option Z;
  body : list ErrorResponse
}.

(** Fields of a structured log line. *)
Inductive Field : Type :=
  | FString (key value : string)
  | FInt (key : string) (value : Z)
  | FError (err : option error).

Record LogLine : Type := {
  log_level : string;
  log_msg : string;
  log_fields : list Field
}.

(** [WriteError]: classify, log the full error, write the response. *)
Definition WriteError (w : ResponseWriter) (r : Request) (err : option error)
    (log : list LogLine) : ResponseWriter * list LogLine :=
  let '(status, code, message) := classifyError err in
  let log' := log ++ [ {| log_level := "error"; log_msg := "request failed";
                          log_fields := [FString "path" (URL_Path r);
                                         FString "method" (Method r);
                                         FInt "status" status;
                                         FString "code" code;
                                         FError err] |} ] in
  let w1 := {| Header := <["Content-Type" := "application/json"]> (Header w);
               status_written := status_written w;
               body := body w |} in
  let w2 := {| Header := Header w1;
               status_written := match status_written w1 with
                                 | Some s => Some s
                                 | None => Some status
                                 end;
               body := body w1 |} in
  let w3 := {| Header := Header w2;
               status_written := status_written w2;
               body := body w2 ++ [ {| resp_Error := message; resp_Code := code |} ] |} in
  (w3, log').

End Errors.

(** ** The Go runtime: dynamic values, contexts, panics *)

Module Go.
Import Errors.

(** Values held in an [interface{}], tagged with their dynamic type.  A
    [database.contextKey] and a [string] with the same characters are
    different values; [Tx] is a handle whose type implements [pgx.Tx]. *)
Inductive dyn : Type :=
  | String_ (s : string)
  | Int_ (n : Z)
  | Bool_ (b : bool)
  | Error_ (e : error)
  | contextKey (s : string)
  | Tx_ (tx : N).

Global Instance error_eq_dec : EqDecision error.
Proof.
  refine (fix dec (x y : error) {struct x} : Decision (x = y) :=
            match x, y with
            | errorString a s, errorString b t =>
                cast_if_and (decide (a = b)) (decide (s = t))
            | wrapError m e, wrapError n e' =>
                cast_if_and (decide (m = n)) (dec e e')
            | wrapErrors m es, wrapErrors n es' =>
                cast_if_and (decide (m = n)) (@list_eq_dec _ dec es es')
            | _, _ => right _
            end); abstract congruence.
Defined.

Global Instance dyn_eq_dec : EqDecision dyn.
Proof. solve_decision. Defined.

(** [interface{}]: [None] is the nil interface. *)
Definition any : Type := option dyn.

(** Package context: the contexts this program builds.  Deadlines are
    carried along; only [Value] is interpreted. *)
Inductive Context : Type :=
  | Background
  | WithValue (parent : Context) (key : dyn) (val : any)
  | WithTimeout (parent : Context) (timeout : Z).

(** [ctx.Value(key)]: the innermost binding of an equal key, nil if none. *)
Fixpoint Value (ctx : Context) (key : dyn) : any :=
  match ctx with
  | Background => None
  | WithValue parent k val => if decide (k = key) then val else Value parent key
  | WithTimeout parent _ => Value parent key
  end.

(** How a call ends: it returns, it panics with a value, or it ends its
    goroutine with [runtime.Goexit].  The value of a panic is never nil
    (since Go 1.21 [panic(nil)] raises a [*runtime.PanicNilError]). *)
Inductive outcome (A : Type) : Type :=
  | Returns (a : A)
  | Panics (p : dyn)
  | Exits.
Arguments Returns {A} a.
Arguments Panics {A} p.
Arguments Exits {A}.

(** Code acting on a world [W]. *)
Definition M (W A : Type) : Type := W -> outcome A * W.

Definition ret {W A} (a : A) : M W A := fun w => (Returns a, w).

Definition panic {W A} (p : dyn) : M W A := fun w => (Panics p, w).

(** Sequencing: a panic or an exit skips the rest of the body. *)
Definition bind {W A B} (m : M W A) (k : A -> M W B) : M W B :=
  fun w =>
    match m w with
    | (Returns a, w') => k a w'
    | (Panics p, w') => (Panics p, w')
    | (Exits, w') => (Exits, w')
    end.

(** [defer func() { ... recover() ... }()] around [body], for a deferred
    function that calls [recover] first.  The deferred function runs when
    the body has returned, panicked or exited and is given what [recover]
    returns: the panic value during a panic, nil otherwise.  If it returns
    during a panic, the panic is over and the function returns [zero], its
    unnamed results; if it panics, that panic goes on to the caller.  After
    [runtime.Goexit] the goroutine goes on exiting once the deferred
    function has returned. *)
Definition defer_recover {W A} (zero : A) (deferred : any -> M W unit)
    (body : M W A) : M W A :=
  fun w =>
    match body w with
    | (Returns a, w1) =>
        match deferred None w1 with
        | (Returns _, w2) => (Returns a, w2)
        | (Panics q, w2) => (Panics q, w2)
        | (Exits, w2) => (Exits, w2)
        end
    | (Panics p, w1) =>
        match deferred (Some p) w1 with
        | (Returns _, w2) => (Returns zero, w2)
        | (Panics q, w2) => (Panics q, w2)
        | (Exits, w2) => (Exits, w2)
        end
    | (Exits, w1) =>
        match deferred None w1 with
        | (Returns _, w2) => (Exits, w2)
        | (Panics q, w2) => (Panics q, w2)
        | (Exits, w2) => (Exits, w2)
        end
    end.

(** [defer f()] around [body], for a deferred call that does not
    recover: it runs when the body has returned, panicked or exited;
    afterwards the function returns what the body returned, or goes on
    panicking or exiting, with the panic of the deferred call if that
    panicked too. *)
Definition defer_ {W A} (deferred : M W unit) (body : M W A) : M W A :=
  fun w =>
    match body w with
    | (Returns a, w1) =>
        match deferred w1 with
        | (Returns _, w2) => (Returns a, w2)
        | (Panics q, w2) => (Panics q, w2)
        | (Exits, w2) => (Exits, w2)
        end
    | (Panics p, w1) =>
        match deferred w1 with
        | (Returns _, w2) => (Panics p, w2)
        | (Panics q, w2) => (Panics q, w2)
        | (Exits, w2) => (Exits, w2)
        end
    | (Exits, w1) =>
        match deferred w1 with
        | (Returns _, w2) => (Exits, w2)
        | (Panics q, w2) => (Panics q, w2)
        | (Exits, w2) => (Exits, w2)
        end
    end.

End Go.

Declare Scope go_scope.
Delimit Scope go_scope with go.
Notation "x <- m ;; k" := (Go.bind m (fun x => k))
  (at level 100, m at next level, right associativity) : go_scope.

(** ** Package config: environment variables, loading and validation *)

Module Config.
Import Errors.

(** [time.Duration] counts nanoseconds. *)
Definition Nanosecond : Z := 1.
Definition Second : Z := 1000000000 * Nanosecond.
Definition Minute : Z := 60 * Second.
Definition Hour : Z := 60 * Minute.

Record AppConfig : Type := {
  Environment : string;
  App_Port : Z;
  LogLevel : string
}.

Record DatabaseConfig : Type := {
  Host : string;
  DB_Port : Z;
  Name : string;
  User : string;
  Password : string;
  SSLMode : string;
  MaxConnections : Z;
  MaxIdleConnections : Z;
  ConnectionLifetime : Z
}.

Record ServerConfig : Type := {
  ReadTimeout : Z;
  WriteTimeout : Z;
  IdleTimeout : Z;
  ShutdownTimeout : Z
}.

Record JWTConfig : Type := {
  Secret : string;
  Expiry : Z
}.

Record CORSConfig : Type := {
  AllowedOrigins : list string;
  AllowedMethods : list string;
  AllowedHeaders : list string
}.

Record Config : Type := {
  App : AppConfig;
  Database : DatabaseConfig;
  Server : ServerConfig;
  JWT : JWTConfig;
  CORS : CORSConfig
}.

(** [strings.Join]. *)
Fixpoint Join (elems : list string) (sep : string) : string :=
  match elems with
  | [] => ""
  | [x] => x
  | x :: rest => x +:+ sep +:+ Join rest sep
  end.

(** [strings.Split(s, ",")]: the fields between commas, at least one. *)
Fixpoint split_comma (cur : string) (s : string) : list string :=
  match s with
  | EmptyString => [cur]
  | String c rest =>
      if Ascii.eqb c ","%char then cur :: split_comma "" rest
      else split_comma (cur +:+ String c EmptyString) rest
  end.

(** The validator collects messages in the order of the checks. *)
Record Validator : Type := { errors : list string }.

Definition NewValidator : Validator := {| errors := [] |}.

Definition Required (v : Validator) (key value : string) : Validator :=
  if String.eqb value "" then
    {| errors := errors v ++ [key +:+ " is required"] |}
  else v.

Definition OneOf (v : Validator) (key value : string) (allowed : list string) : Validator :=
  if existsb (String.eqb value) allowed then v
  else {| errors := errors v ++ [key +:+ " must be one of: " +:+ Join allowed ", "] |}.

Definition Range (v : Validator) (key : string) (value min max : Z) : Validator :=
  if (value <? min)%Z || (value >? max)%Z then
    {| errors := errors v ++
         [key +:+ " must be between " +:+ pretty min +:+ " and " +:+ pretty max] |}
  else v.

Definition Min (v : Validator) (key : string) (value min : Z) : Validator :=
  if (value <? min)%Z then
    {| errors := errors v ++ [key +:+ " must be at least " +:+ pretty min] |}
  else v.

Definition MinLength (v : Validator) (key value : string) (min : Z) : Validator :=
  if (Z.of_nat (String.length value) <? min)%Z then
    {| errors := errors v ++
         [key +:+ " must be at least " +:+ pretty min +:+ " characters"] |}
  else v.

Definition newline : string := String (Ascii.ascii_of_nat 10) EmptyString.

(** [Validator.Error]: nil when nothing was collected, otherwise one new
    error value, allocated at [addr]. *)
Definition Validator_Error (addr : N) (v : Validator) : option error :=
  match errors v with
  | [] => None
  | _ => Some (errorString addr
           ("configuration validation failed:" +:+ newline +:+ "  - " +:+
            Join (errors v) (newline +:+ "  - ")))
  end.

(** [Config.Validate]. *)
Definition Validate (addr : N) (c : Config) : option error :=
  let v := NewValidator in
  let v := Required v "APP_ENV" (Environment (App c)) in
  let v := OneOf v "APP_ENV" (Environment (App c)) ["development"; "staging"; "production"] in
  let v := Range v "APP_PORT" (App_Port (App c)) 1 65535 in
  let v := OneOf v "APP_LOG_LEVEL" (LogLevel (App c)) ["debug"; "info"; "warn"; "error"] in
  let v := Required v "DB_HOST" (Host (Database c)) in
  let v := Range v "DB_PORT" (DB_Port (Database c)) 1 65535 in
  let v := Required v "DB_NAME" (Name (Database c)) in
  let v := Required v "DB_USER" (User (Database c)) in
  let v := Required v "DB_PASSWORD" (Password (Database c)) in
  let v := OneOf v "DB_SSL_MODE" (SSLMode (Database c)) ["disable"; "require"; "verify-full"] in
  let v := Min v "DB_MAX_CONNECTIONS" (MaxConnections (Database c)) 1 in
  let v := Min v "DB_MAX_IDLE_CONNECTIONS" (MaxIdleConnections (Database c)) 1 in
  let v :=
    if String.eqb (Environment (App c)) "production" then
      let v := Required v "JWT_SECRET" (Secret (JWT c)) in
      MinLength v "JWT_SECRET" (Secret (JWT c)) 32
    else v in
  Validator_Error addr v.

(** [DatabaseConfig.GetDatabaseURL]. *)
Definition GetDatabaseURL (c : DatabaseConfig) : string :=
  "host=" +:+ Host c +:+ " port=" +:+ pretty (DB_Port c) +:+
  " user=" +:+ User c +:+ " password=" +:+ Password c +:+
  " dbname=" +:+ Name c +:+ " sslmode=" +:+ SSLMode c.

Definition IsDevelopment (c : Config) : bool :=
  String.eqb (Environment (App c)) "development".

Definition IsProduction (c : Config) : bool :=
  String.eqb (Environment (App c)) "production".

Section Env.

(** The standard library's parsers, as the helpers see them: a value or an
    error.  [strconv.Atoi] and [time.ParseDuration] are outside this
    repository, as is [strings.TrimSpace]. *)
Variable Atoi : string -> Z + error.
Variable ParseDuration : string -> Z + error.
Variable TrimSpace : string -> string.

(** The process environment, and [os.Getenv]: the value, empty when the
    variable is not set. *)
Definition Getenv (env : gmap string string) (key : string) : string :=
  default "" (env !! key).

Definition getEnv (env : gmap string string) (key defaultValue : string) : string :=
  let value := Getenv env key in
  if negb (String.eqb value "") then value else defaultValue.

Definition getEnvAsInt (env : gmap string string) (key : string) (defaultValue : Z) : Z :=
  let valueStr := Getenv env key in
  if String.eqb valueStr "" then defaultValue
  else
    match Atoi valueStr with
    | inr _ => defaultValue
    | inl value => value
    end.

Definition getEnvAsDuration (env : gmap string string) (key : string) (defaultValue : Z) : Z :=
  let valueStr := Getenv env key in
  if String.eqb valueStr "" then defaultValue
  else
    match ParseDuration valueStr with
    | inr _ => defaultValue
    | inl value => value
    end.

Definition getEnvAsSlice (env : gmap string string) (key : string)
    (defaultValue : list string) : list string :=
  let valueStr := Getenv env key in
  if String.eqb valueStr "" then defaultValue
  else map TrimSpace (split_comma "" valueStr).

(** [Load], on the environment as [os.Getenv] sees it once
    [godotenv.Load] has run; [addr] is where a validation error would be
    allocated. *)
Definition Load (addr : N) (env : gmap string string) : Config + error :=
  let cfg :=
    {| App := {| Environment := getEnv env "APP_ENV" "development";
                 App_Port := getEnvAsInt env "APP_PORT" 8080;
                 LogLevel := getEnv env "APP_LOG_LEVEL" "info" |};
       Database := {| Host := getEnv env "DB_HOST" "localhost";
                      DB_Port := getEnvAsInt env "DB_PORT" 5432;
                      Name := getEnv env "DB_NAME" "logistics_db";
                      User := getEnv env "DB_USER" "postgres";
                      Password := getEnv env "DB_PASSWORD" "";
                      SSLMode := getEnv env "DB_SSL_MODE" "disable";
                      MaxConnections := getEnvAsInt env "DB_MAX_CONNECTIONS" 25;
                      MaxIdleConnections := getEnvAsInt env "DB_MAX_IDLE_CONNECTIONS" 5;
                      ConnectionLifetime :=
                        getEnvAsDuration env "DB_CONNECTION_LIFETIME" (5 * Minute) |};
       Server := {| ReadTimeout := getEnvAsDuration env "SERVER_READ_TIMEOUT" (10 * Second);
                    WriteTimeout := getEnvAsDuration env "SERVER_WRITE_TIMEOUT" (10 * Second);
                    IdleTimeout := getEnvAsDuration env "SERVER_IDLE_TIMEOUT" (120 * Second);
                    ShutdownTimeout :=
                      getEnvAsDuration env "SERVER_SHUTDOWN_TIMEOUT" (30 * Second) |};
       JWT := {| Secret := getEnv env "JWT_SECRET" "";
                 Expiry := getEnvAsDuration env "JWT_EXPIRY" (24 * Hour) |};
       CORS := {| AllowedOrigins := getEnvAsSlice env "CORS_ALLOWED_ORIGINS" ["*"];
                  AllowedMethods := getEnvAsSlice env "CORS_ALLOWED_METHODS"
                                      ["GET"; "POST"; "PUT"; "DELETE"; "OPTIONS"];
                  AllowedHeaders := getEnvAsSlice env "CORS_ALLOWED_HEADERS"
                                      ["Content-Type"; "Authorization"] |} |} in
  match Validate addr cfg with
  | Some err => inr (Errorf "invalid configuration: " err "")
  | None => inl cfg
  end.

End Env.


End Config.

(** ** Package database: the pool and the transaction manager *)

Module Database.
Import Errors Go Config.

(** A transaction handle ([pgx.Tx]) and a non-nil [*pgxpool.Pool]. *)
Definition Tx : Type := N.
Definition Pool : Type := positive.

Record PoolConfig : Type := {
  ConnString : string;
  MaxConns : Z;
  MinConns : Z;
  MaxConnLifetime : Z;
  MaxConnIdleTime : Z;
  HealthCheckPeriod : Z
}.

(** The conversion [int32(n)] of an [int]: the low 32 bits, signed. *)
Definition int32 (n : Z) : Z := (n + 2 ^ 31) mod 2 ^ 32 - 2 ^ 31.

(** The calls this package makes, as they appear in the trace. *)
Inductive Event : Type :=
  | ParseConfig_ (connStr : string)
  | NewWithConfig_ (config : PoolConfig)
  | Ping_ (pool : Pool)
  | PoolClose_ (pool : Pool)
  | Begin_ (pool : Pool)
  | Call_ (ctx : Context)
  | Commit_ (tx : Tx)
  | Rollback_ (tx : Tx).

(** A pool object on the heap.  [pool_closed] is the [sync.Once] of
    [pgxpool.Pool.Close]: the first call closes, later calls return at
    once. *)
Record PoolObj : Type := {
  pool_config : PoolConfig;
  pool_closed : bool
}.

(** What pgx and the database server do, over a state [DB] of their own.
    Every operation returns, as its Go signature says, and reports what
    the Go function returns besides the state; [pgxpool.NewWithConfig] and
    [Pool.Begin] return either their object or an error, never both. *)
Class Pgx (DB : Type) : Type := {
  pgx_ParseConfig : string -> PoolConfig + error;
  pgx_connect : Context -> PoolConfig -> DB -> option error * DB;
  pgx_Ping : Context -> Pool -> DB -> option error * DB;
  pgx_Begin : Context -> Pool -> DB -> (Tx + error) * DB;
  pgx_Commit : Context -> Tx -> DB -> option error * DB;
  pgx_Rollback : Context -> Tx -> DB -> option error * DB
}.

(** The world of this package: the database, the pools allocated so far,
    and the trace of calls made by the package's own code. *)
Record World (DB : Type) : Type := {
  db : DB;
  pools : gmap positive PoolObj;
  trace : list Event
}.
Arguments db {DB} _.
Arguments pools {DB} _.
Arguments trace {DB} _.

(** The panic of a method call through a nil pointer. *)
Definition nil_dereference : dyn :=
  Error_ (errorString 0 "runtime error: invalid memory address or nil pointer dereference").

Section Driver.
Context {DB : Type} {pgx : Pgx DB}.

Definition log (e : Event) (w : World DB) : World DB :=
  {| db := db w; pools := pools w; trace := trace w ++ [e] |}.

Definition with_db (d : DB) (w : World DB) : World DB :=
  {| db := d; pools := pools w; trace := trace w |}.

(** [pgxpool.ParseConfig(connStr)]. *)
Definition pgxpool_ParseConfig (connStr : string) : M (World DB) (PoolConfig + error) :=
  fun w => (Returns (pgx_ParseConfig connStr), log (ParseConfig_ connStr) w).

(** [pgxpool.NewWithConfig(ctx, config)]: a new pool at a fresh address,
    or nil and an error. *)
Definition pgxpool_NewWithConfig (ctx : Context) (config : PoolConfig)
    : M (World DB) (option Pool * option error) :=
  fun w =>
    let w := log (NewWithConfig_ config) w in
    match pgx_connect ctx config (db w) with
    | (Some err, d) => (Returns (None, Some err), with_db d w)
    | (None, d) =>
        let p := fresh (dom (pools w)) in
        (Returns (Some p, None),
         {| db := d;
            pools := <[p := {| pool_config := config; pool_closed := false |}]> (pools w);
            trace := trace w |})
    end.

(** [pool.Ping(ctx)]. *)
Definition Pool_Ping (pool : option Pool) (ctx : Context) : M (World DB) (option error) :=
  fun w =>
    match pool with
    | None => (Panics nil_dereference, w)
    | Some p =>
        let w := log (Ping_ p) w in
        let '(r, d) := pgx_Ping ctx p (db w) in
        (Returns r, with_db d w)
    end.

(** [pool.Close()]. *)
Definition Pool_Close (pool : option Pool) : M (World DB) unit :=
  fun w =>
    match pool with
    | None => (Panics nil_dereference, w)
    | Some p =>
        let w := log (PoolClose_ p) w in
        (Returns tt,
         {| db := db w;
            pools := alter (fun o => {| pool_config := pool_config o;
                                        pool_closed := true |}) p (pools w);
            trace := trace w |})
    end.

(** [pool.Begin(ctx)]. *)
Definition Pool_Begin (pool : option Pool) (ctx : Context) : M (World DB) (Tx + error) :=
  fun w =>
    match pool with
    | None => (Panics nil_dereference, w)
    | Some p =>
        let w := log (Begin_ p) w in
        let '(r, d) := pgx_Begin ctx p (db w) in
        (Returns r, with_db d w)
    end.

(** [tx.Commit(ctx)] and [tx.Rollback(ctx)]. *)
Definition Tx_Commit (tx : Tx) (ctx : Context) : M (World DB) (option error) :=
  fun w =>
    let w := log (Commit_ tx) w in
    let '(r, d) := pgx_Commit ctx tx (db w) in
    (Returns r, with_db d w).

Definition Tx_Rollback (tx : Tx) (ctx : Context) : M (World DB) (option error) :=
  fun w =>
    let w := log (Rollback_ tx) w in
    let '(r, d) := pgx_Rollback ctx tx (db w) in
    (Returns r, with_db d w).

(** A unit of work: caller code that is handed a context and acts on the
    database; it returns a result and an error, panics, or exits. *)
Definition UnitOfWork : Type := Context -> DB -> outcome (any * option error) * DB.

(** The call [fn(txCtx)]. *)
Definition call (fn : UnitOfWork) (ctx : Context) : M (World DB) (any * option error) :=
  fun w =>
    let w := log (Call_ ctx) w in
    let '(r, d) := fn ctx (db w) in
    (r, with_db d w).

(** *** postgres.go *)

(** [NewPostgresPool]. *)
Definition NewPostgresPool (ctx : Context) (cfg : DatabaseConfig)
    : M (World DB) (option Pool * option error) :=
  (let connStr := GetDatabaseURL cfg in
   parsed <- pgxpool_ParseConfig connStr ;;
   match parsed with
   | inr err => ret (None, Some (Errorf "unable to parse database config: " err ""))
   | inl poolConfig =>
       let poolConfig :=
         {| ConnString := ConnString poolConfig;
            MaxConns := int32 (MaxConnections cfg);
            MinConns := int32 (MaxIdleConnections cfg);
            MaxConnLifetime := ConnectionLifetime cfg;
            MaxConnIdleTime := 30 * Minute;
            HealthCheckPeriod := 1 * Minute |} in
       created <- pgxpool_NewWithConfig ctx poolConfig ;;
       let '(pool, err) := created in
       match err with
       | Some err => ret (None, Some (Errorf "unable to create connection pool: " err ""))
       | None =>
           pinged <- Pool_Ping pool ctx ;;
           match pinged with
           | Some err =>
               _ <- Pool_Close pool ;;
               ret (None, Some (Errorf "unable to ping database: " err ""))
           | None => ret (pool, None)
           end
       end
   end)%go.

(** [Close]. *)
Definition Close (pool : option Pool) : M (World DB) unit :=
  match pool with
  | Some _ => Pool_Close pool
  | None => ret tt
  end.

(** [HealthCheck]. *)
Definition HealthCheck (ctx : Context) (pool : option Pool) : M (World DB) (option error) :=
  (let ctx := WithTimeout ctx (5 * Second) in
   pinged <- Pool_Ping pool ctx ;;
   match pinged with
   | Some err => ret (Some (Errorf "database health check failed: " err ""))
   | None => ret None
   end)%go.

(** *** transaction.go *)

Record PostgresTransactionManager : Type := { pool : option Pool }.

Definition NewPostgresTransactionManager (pool : option Pool) : PostgresTransactionManager :=
  {| pool := pool |}.

(** The context key under which the transaction travels. *)
Definition txKey : dyn := contextKey "tx".

(** [WithTransaction]. *)
Definition WithTransaction (tm : PostgresTransactionManager) (ctx : Context)
    (fn : UnitOfWork) : M (World DB) (any * option error) :=
  (began <- Pool_Begin (pool tm) ctx ;;
   match began with
   | inr err => ret (None, Some (Errorf "failed to begin transaction: " err ""))
   | inl tx =>
       defer_recover (None, None)
         (fun p =>
            match p with
            | Some p => _ <- Tx_Rollback tx ctx ;; panic p
            | None => ret tt
            end)
         (let txCtx := WithValue ctx txKey (Some (Tx_ tx)) in
          returned <- call fn txCtx ;;
          let '(result, err) := returned in
          match err with
          | Some err =>
              rolled <- Tx_Rollback tx ctx ;;
              match rolled with
              | Some rbErr =>
                  ret (None, Some (Errorf "tx error: " err
                                     (", rollback error: " +:+ Error rbErr)))
              | None => ret (None, Some err)
              end
          | None =>
              committed <- Tx_Commit tx ctx ;;
              match committed with
              | Some err => ret (None, Some (Errorf "failed to commit transaction: " err ""))
              | None => ret (result, None)
              end
          end)
   end)%go.

End Driver.

(** The assertion [v.(pgx.Tx)] in its comma-ok form: the handle and true
    when [v] holds a transaction, nil and false for anything else and for
    the nil interface.  Unlike the one-result form it cannot panic. *)
Definition assert_Tx (v : any) : option Tx * bool :=
  match v with
  | Some (Tx_ tx) => (Some tx, true)
  | _ => (None, false)
  end.

(** [GetTx]. *)
Definition GetTx (ctx : Context) : outcome (option Tx) :=
  let '(tx, ok) := assert_Tx (Value ctx txKey) in
  if negb ok then Returns None else Returns tx.

(** Reading a trace: the commits and the rollbacks in it. *)
Definition is_commit (e : Event) : bool :=
  match e with
  | Commit_ _ => true
  | _ => false
  end.

Definition is_rollback (e : Event) : bool :=
  match e with
  | Rollback_ _ => true
  | _ => false
  end.

Definition commits (t : list Event) : nat := length (List.filter is_commit t).
Definition rollbacks (t : list Event) : nat := length (List.filter is_rollback t).

End Database.

(** ** Package server: start and graceful shutdown *)

Module Server.
Import Errors Go Config.

(** The two signals [Start] subscribes to, and [sig.String()]. *)
Inductive Signal : Type := Interrupt | SIGTERM.

Definition Signal_String (sig : Signal) : string :=
  match sig with
  | Interrupt => "interrupt"
  | SIGTERM => "terminated"
  end.

(** What the [select] of [Start] receives: the error [ListenAndServe]
    returned (it never returns nil), or a signal. *)
Inductive Received : Type :=
  | serverErrors (err : error)
  | shutdown (sig : Signal).

(** The calls into net/http and os/signal, as they appear in the trace. *)
Inductive Event : Type :=
  | ListenAndServe_ (addr : string)
  | Notify_ (signals : list Signal)
  | Shutdown_ (ctx : Context)
  | Close_.

(** What net/http and the operating system do, over a state [NET] of their
    own.  [http_select] runs the serve goroutine on the given address next
    to the signal channel and reports which of the two channels the
    [select] receives from.  While the server serves and no signal
    arrives the [select] blocks; the model has the runs in which it
    receives, and says nothing on whether it ever does. *)
Class Http (NET : Type) : Type := {
  http_select : string -> NET -> Received * NET;
  http_Shutdown : Context -> NET -> option error * NET;
  http_Close : NET -> option error * NET
}.

Record World (NET : Type) : Type := {
  net : NET;
  logged : list LogLine;
  trace : list Event
}.
Arguments net {NET} _.
Arguments logged {NET} _.
Arguments trace {NET} _.

(** The [http.Server] and the [Server] around it; the logger of a
    [Server] is the log of the world. *)
Record http_Server (Hd : Type) : Type := {
  Addr : string;
  Handler : Hd;
  srv_ReadTimeout : Z;
  srv_WriteTimeout : Z;
  srv_IdleTimeout : Z
}.
Arguments Addr {Hd} _.
Arguments Handler {Hd} _.
Arguments srv_ReadTimeout {Hd} _.
Arguments srv_WriteTimeout {Hd} _.
Arguments srv_IdleTimeout {Hd} _.

Record Server (Hd : Type) : Type := {
  httpServer : http_Server Hd;
  config : ServerConfig
}.
Arguments httpServer {Hd} _.
Arguments config {Hd} _.

Definition NewServer {Hd : Type} (handler : Hd) (cfg : ServerConfig) : Server Hd :=
  {| httpServer := {| Addr := "";
                      Handler := handler;
                      srv_ReadTimeout := ReadTimeout cfg;
                      srv_WriteTimeout := WriteTimeout cfg;
                      srv_IdleTimeout := IdleTimeout cfg |};
     config := cfg |}.

Section Lifecycle.
Context {NET : Type} {http : Http NET} {Hd : Type}.

Definition record (e : Event) : M (World NET) unit :=
  fun w => (Returns tt, {| net := net w; logged := logged w; trace := trace w ++ [e] |}).

Definition logger (level msg : string) (fields : list Field) : M (World NET) unit :=
  fun w =>
    (Returns tt,
     {| net := net w;
        logged := logged w ++ [ {| log_level := level; log_msg := msg;
                                   log_fields := fields |} ];
        trace := trace w |}).

Definition lift {A} (op : NET -> A * NET) : M (World NET) A :=
  fun w =>
    let '(a, n) := op (net w) in
    (Returns a, {| net := n; logged := logged w; trace := trace w |}).

(** The assignment [s.httpServer.Addr = addr]. *)
Definition set_Addr (s : Server Hd) (addr : string) : Server Hd :=
  {| httpServer := {| Addr := addr;
                      Handler := Handler (httpServer s);
                      srv_ReadTimeout := srv_ReadTimeout (httpServer s);
                      srv_WriteTimeout := srv_WriteTimeout (httpServer s);
                      srv_IdleTimeout := srv_IdleTimeout (httpServer s) |};
     config := config s |}.

(** [Start].  The goroutine's log line and its call of [ListenAndServe]
    are placed before [signal.Notify].  Go fixes only that both come before
    the [select] receives the listener's error; where the goroutine's line
    falls among the lines of [Start]'s own path is left to the scheduler,
    and no statement below relies on its place. *)
Definition Start (s : Server Hd) (port : Z) : M (World NET) (option error) :=
  (let s := set_Addr s (":" +:+ pretty port) in
   _ <- logger "info" "starting HTTP server" [FInt "port" port] ;;
   _ <- record (ListenAndServe_ (Addr (httpServer s))) ;;
   _ <- record (Notify_ [Interrupt; SIGTERM]) ;;
   received <- lift (http_select (Addr (httpServer s))) ;;
   match received with
   | serverErrors err => ret (Some (Errorf "server error: " err ""))
   | shutdown sig =>
       _ <- logger "info" "shutdown signal received"
              [FString "signal" (Signal_String sig)] ;;
       let ctx := WithTimeout Background (ShutdownTimeout (config s)) in
       _ <- record (Shutdown_ ctx) ;;
       drained <- lift (http_Shutdown ctx) ;;
       match drained with
       | Some err =>
           _ <- logger "error" "graceful shutdown failed" [FError (Some err)] ;;
           _ <- record Close_ ;;
           closed <- lift http_Close ;;
           match closed with
           | Some closeErr => ret (Some (Errorf "force close error: " closeErr ""))
           | None => ret (Some (Errorf "graceful shutdown error: " err ""))
           end
       | None =>
           _ <- logger "info" "server stopped gracefully" [] ;;
           ret None
       end
   end)%go.

End Lifecycle.

End Server.

(** ** Package logger: the zap logger behind the interface *)

Module Logger.
Import Errors Go Config.

(** The four zapcore levels the constructor chooses from, and
    [Level.String()]. *)
Inductive Level : Type := DebugLevel | InfoLevel | WarnLevel | ErrorLevel.

Definition Level_String (l : Level) : string :=
  match l with
  | DebugLevel => "debug"
  | InfoLevel => "info"
  | WarnLevel => "warn"
  | ErrorLevel => "error"
  end.

Inductive Encoder : Type := JSONEncoder | ConsoleEncoder.

(** What [NewLogger] decides about the core of the logger, and the fields
    added by [With]. *)
Record ZapLogger : Type := {
  level : Level;
  encoder : Encoder;
  context_fields : list Field
}.

(** [NewLogger]: the [switch] on the level has no default case, so the
    initial [InfoLevel] stays for any other string. *)
Definition NewLogger (cfg : AppConfig) : ZapLogger * option error :=
  let level := InfoLevel in
  let level :=
    if String.eqb (LogLevel cfg) "debug" then DebugLevel
    else if String.eqb (LogLevel cfg) "info" then InfoLevel
    else if String.eqb (LogLevel cfg) "warn" then WarnLevel
    else if String.eqb (LogLevel cfg) "error" then ErrorLevel
    else level in
  let encoder :=
    if String.eqb (Environment cfg) "production" then JSONEncoder
    else ConsoleEncoder in
  ({| level := level; encoder := encoder; context_fields := [] |}, None).

(** [With] and [WithContext]. *)
Definition With (l : ZapLogger) (fields : list Field) : ZapLogger :=
  {| level := level l; encoder := encoder l;
     context_fields := context_fields l ++ fields |}.

Definition WithContext (l : ZapLogger) (ctx : Context) : ZapLogger := l.

End Logger.

(** ** Package main: the start-up sequence *)

Module Main.
Import Errors Go Config.

(** What [setupRouter] registers: the middleware, the health route and
    the mount point of the API. *)
Record Router : Type := {
  middleware : list string;
  routes : list (string * string);
  mounted : list string
}.

Definition setupRouter : Router :=
  {| middleware := ["RequestID"; "RealIP"; "Logger"; "Recoverer"];
     routes := [("GET", "/health")];
     mounted := ["/api/v1"] |}.

(** The process: the world of the database package next to the world of
    the server package, whose log is the log of the process. *)
Record Process (DB NET : Type) : Type := {
  database : Database.World DB;
  server : Server.World NET
}.
Arguments database {DB NET} _.
Arguments server {DB NET} _.

Section Run.
Context {DB : Type} {pgx : Database.Pgx DB} {NET : Type} {http : Server.Http NET}.

(** The parsers of the standard library and the address of a validation
    error, as [Config.Load] takes them. *)
Variable Atoi : string -> Z + error.
Variable ParseDuration : string -> Z + error.
Variable TrimSpace : string -> string.
Variable addr : N.

Definition in_database {A} (m : M (Database.World DB) A) : M (Process DB NET) A :=
  fun w =>
    let '(r, d) := m (database w) in
    (r, {| database := d; server := server w |}).

Definition in_server {A} (m : M (Server.World NET) A) : M (Process DB NET) A :=
  fun w =>
    let '(r, n) := m (server w) in
    (r, {| database := database w; server := n |}).

(** [run], on the environment as [os.Getenv] sees it once
    [godotenv.Load] has run. *)
Definition run (env : gmap string string) : M (Process DB NET) (option error) :=
  (let ctx := Background in
   match Load Atoi ParseDuration TrimSpace addr env with
   | inr err => ret (Some (Errorf "failed to load config: " err ""))
   | inl cfg =>
       let '(log, err) := Logger.NewLogger (App cfg) in
       match err with
       | Some err => ret (Some (Errorf "failed to create logger: " err ""))
       | None =>
           _ <- in_server (Server.logger "info" "starting application"
                             [FString "environment" (Environment (App cfg));
                              FInt "port" (App_Port (App cfg))]) ;;
           opened <- in_database (Database.NewPostgresPool ctx (Config.Database cfg)) ;;
           let '(pool, err) := opened in
           match err with
           | Some err => ret (Some (Errorf "failed to connect to database: " err ""))
           | None =>
               defer_ (in_database (Database.Close pool))
                 (_ <- in_server (Server.logger "info" "database connection established"
                                    [FString "host" (Host (Config.Database cfg));
                                     FInt "port" (DB_Port (Config.Database cfg));
                                     FString "database" (Name (Config.Database cfg))]) ;;
                  let router := setupRouter in
                  let srv := Server.NewServer router (Config.Server cfg) in
                  in_server (Server.Start srv (App_Port (App cfg))))
           end
       end
   end)%go.

(** [main]: the exit status and what is written to the error stream. *)
Definition main (env : gmap string string) : M (Process DB NET) (Z * string) :=
  (returned <- run env ;;
   match returned with
   | Some err => ret (1, "error: " +:+ Error err +:+ Config.newline)
   | None => ret (0, "")
   end)%go.

End Run.

End Main.

(** ** Test doubles: a scripted database, a timed server, small parsers *)

Module Scenario.
Import Errors Go Config.

(** Errors of other packages. *)
Definition DeadlineExceeded : error := errorString 20 "context deadline exceeded".
Definition ErrTxCommitRollback : error :=
  errorString 21 "commit unexpectedly resulted in rollback".
Definition ErrConnRefused : error := errorString 22 "connection refused".
Definition ErrBadConnString : error := errorString 23 "cannot parse connection string".
Definition ErrSyntax : error := errorString 24 "invalid syntax".
Definition ErrRange : error := errorString 25 "value out of range".
Definition ErrDuration : error := errorString 26 "time: invalid duration".
Definition ErrAddrInUse : error := errorString 27 "address already in use".
Definition ErrInsufficientFunds : error := errorString 28 "insufficient funds".

(** A database that answers every call as scripted and hands out one
    transaction handle. *)
Record Script : Type := {
  connect_answer : option error;
  ping_answer : option error;
  begin_answer : option error;
  commit_answer : option error;
  rollback_answer : option error;
  next_tx : N
}.

Definition parsed_defaults (connStr : string) : Database.PoolConfig :=
  {| Database.ConnString := connStr;
     Database.MaxConns := 4;
     Database.MinConns := 0;
     Database.MaxConnLifetime := Hour;
     Database.MaxConnIdleTime := 30 * Minute;
     Database.HealthCheckPeriod := Minute |}.

Definition scripted (parse_ok : bool) : Database.Pgx Script :=
  {| Database.pgx_ParseConfig connStr :=
       if parse_ok then inl (parsed_defaults connStr) else inr ErrBadConnString;
     Database.pgx_connect _ _ d := (connect_answer d, d);
     Database.pgx_Ping _ _ d := (ping_answer d, d);
     Database.pgx_Begin _ _ d :=
       (match begin_answer d with
        | Some e => inr e
        | None => inl (next_tx d)
        end, d);
     Database.pgx_Commit _ _ d := (commit_answer d, d);
     Database.pgx_Rollback _ _ d := (rollback_answer d, d) |}.

Definition all_well : Script :=
  {| connect_answer := None; ping_answer := None; begin_answer := None;
     commit_answer := None; rollback_answer := None; next_tx := 7 |}.

Definition begin_fails : Script :=
  {| connect_answer := None; ping_answer := None; begin_answer := Some ErrConnRefused;
     commit_answer := None; rollback_answer := None; next_tx := 7 |}.

Definition commit_fails : Script :=
  {| connect_answer := None; ping_answer := None; begin_answer := None;
     commit_answer := Some ErrTxCommitRollback; rollback_answer := None; next_tx := 7 |}.

Definition rollback_fails : Script :=
  {| connect_answer := None; ping_answer := None; begin_answer := None;
     commit_answer := None; rollback_answer := Some ErrConnRefused; next_tx := 7 |}.

Definition connect_fails : Script :=
  {| connect_answer := Some ErrConnRefused; ping_answer := None; begin_answer := None;
     commit_answer := None; rollback_answer := None; next_tx := 7 |}.

Definition ping_fails : Script :=
  {| connect_answer := None; ping_answer := Some ErrConnRefused; begin_answer := None;
     commit_answer := None; rollback_answer := None; next_tx := 7 |}.

Definition start (d : Script) : Database.World Script :=
  {| Database.db := d; Database.pools := ∅; Database.trace := [] |}.

(** A world in which one pool has already been opened. *)
Definition one_pool (d : Script) : Database.World Script :=
  {| Database.db := d;
     Database.pools := {[ 1%positive := {| Database.pool_config := parsed_defaults "";
                                           Database.pool_closed := false |} ]};
     Database.trace := [] |}.

(** Units of work: one that succeeds, one that fails, one that panics,
    and one that calls [runtime.Goexit]. *)
Definition work_ok : Database.UnitOfWork (DB := Script) :=
  fun _ d => (Returns (Some (String_ "order-42"), None), d).
Definition work_fails : Database.UnitOfWork (DB := Script) :=
  fun _ d => (Returns (None, Some ErrInsufficientFunds), d).
Definition work_panics : Database.UnitOfWork (DB := Script) :=
  fun _ d => (Panics (String_ "index out of range"), d).
Definition work_exits : Database.UnitOfWork (DB := Script) :=
  fun _ d => (Exits, d).

Definition local_db : DatabaseConfig :=
  {| Host := "localhost"; DB_Port := 5432; Name := "logistics_db"; User := "postgres";
     Password := "secret"; SSLMode := "disable"; MaxConnections := 25;
     MaxIdleConnections := 5; ConnectionLifetime := 5 * Minute |}.

(** A server whose drain takes as long as its in-flight requests need:
    [Shutdown] succeeds when that fits in the deadline of its context and
    reports the expired deadline otherwise. *)
Record Net : Type := {
  listener_error : option error;
  signal : Server.Signal;
  inflight : Z;
  close_error : option error
}.

Definition deadline (ctx : Context) : option Z :=
  match ctx with
  | WithTimeout _ t => Some t
  | _ => None
  end.

Definition timed : Server.Http Net :=
  {| Server.http_select _ n :=
       (match listener_error n with
        | Some e => Server.serverErrors e
        | None => Server.shutdown (signal n)
        end, n);
     Server.http_Shutdown ctx n :=
       (match deadline ctx with
        | Some t => if (inflight n <=? t)%Z then None else Some DeadlineExceeded
        | None => None
        end, n);
     Server.http_Close n := (close_error n, n) |}.

Definition boot (n : Net) : Server.World Net :=
  {| Server.net := n; Server.logged := []; Server.trace := [] |}.

Definition two_seconds : ServerConfig :=
  {| ReadTimeout := 10 * Second; WriteTimeout := 10 * Second;
     IdleTimeout := 120 * Second; ShutdownTimeout := 2 * Second |}.

(** Decimal digits, for the example parsers. *)
Definition digit (c : ascii) : option Z :=
  let n := Z.of_nat (nat_of_ascii c) in
  if (48 <=? n)%Z && (n <=? 57)%Z then Some (n - 48) else None.

Fixpoint digits (acc : Z) (s : string) : option Z :=
  match s with
  | EmptyString => Some acc
  | String c rest =>
      match digit c with
      | Some d => digits (10 * acc + d) rest
      | None => None
      end
  end.

(** [strconv.Atoi] on a 64-bit platform: an optional sign, then at least
    one decimal digit and nothing else, within the range of [int]. *)
Definition Atoi (s : string) : Z + error :=
  let '(neg, body) :=
    match s with
    | String "-" rest => (true, rest)
    | String "+" rest => (false, rest)
    | _ => (false, s)
    end in
  match body with
  | EmptyString => inr ErrSyntax
  | _ =>
      match digits 0 body with
      | None => inr ErrSyntax
      | Some n =>
          let v := if neg then - n else n in
          if (- 2 ^ 63 <=? v)%Z && (v <? 2 ^ 63)%Z then inl v else inr ErrRange
      end
  end.

(** The whole-seconds fragment of [time.ParseDuration]: digits followed by
    the unit [s]; everything else is rejected here. *)
Fixpoint seconds (acc : Z) (seen : bool) (s : string) : Z + error :=
  match s with
  | EmptyString => inr ErrDuration
  | String c rest =>
      match digit c with
      | Some d => seconds (10 * acc + d) true rest
      | None =>
          if seen && Ascii.eqb c "s" && String.eqb rest "" then inl (acc * Second)
          else inr ErrDuration
      end
  end.

Definition ParseSeconds (s : string) : Z + error := seconds 0 false s.

End Scenario.

(** * Properties *)

(** ** The classifier *)

Module ErrorsSpec.
Import Errors.

(** Induction over errors, with the errors behind a [wrapErrors] covered
    by the hypothesis. *)
Section Induction.
Variable P : error -> Prop.
Hypothesis Hstring : forall a s, P (errorString a s).
Hypothesis Hwrap : forall m e, P e -> P (wrapError m e).
Hypothesis Hwraps : forall m es, Forall P es -> P (wrapErrors m es).

Fixpoint error_nested_ind (e : error) : P e :=
  match e with
  | errorString a s => Hstring a s
  | wrapError m e' => Hwrap m e' (error_nested_ind e')
  | wrapErrors m es =>
      Hwraps m es
        ((fix all (es : list error) : Forall P es :=
            match es with
            | [] => List.Forall_nil P
            | e' :: es' => List.Forall_cons P e' es' (error_nested_ind e') (all es')
            end) es)
  end.
End Induction.

(** An error built by [errors.New] and single [%w] wrappers only: one
    [Unwrap] chain.  Every error this repository builds is of this kind. *)
Fixpoint chain (e : error) : bool :=
  match e with
  | errorString _ _ => true
  | wrapError _ inner => chain inner
  | wrapErrors _ _ => false
  end.

(** The error at the end of the [Unwrap] chain. *)
Fixpoint root (e : error) : error :=
  match e with
  | errorString _ _ => e
  | wrapError _ inner => root inner
  | wrapErrors _ _ => e
  end.

Definition addr_of (e : error) : N :=
  match e with
  | errorString a _ => a
  | wrapError _ _ => 0%N
  | wrapErrors _ _ => 0%N
  end.

Lemma same_error_refl (e : error) : same_error e e = true.
Proof.
  induction e as [a s | m e IH | m es IH] using error_nested_ind; simpl.
  - apply N.eqb_refl.
  - rewrite String.eqb_refl, IH. reflexivity.
  - rewrite String.eqb_refl. simpl.
    induction IH as [| e es He _ IHes]; [reflexivity |].
    rewrite He. exact IHes.
Qed.

Lemma errors_is_refl (e : error) : errors_is e e = true.
Proof.
  destruct e; cbn [errors_is]; rewrite same_error_refl; reflexivity.
Qed.

(** Against a sentinel, [errors.Is] on a chain looks at its root only. *)
Lemma errors_is_sentinel (e : error) (a : N) (s : string) :
  chain e = true ->
  errors_is e (errorString a s) = N.eqb (addr_of (root e)) a.
Proof.
  induction e as [b t | m e IH | m es]; simpl; intros Hchain.
  - rewrite orb_false_r. reflexivity.
  - exact (IH Hchain).
  - discriminate.
Qed.

(** A wrapper matches the sentinels its cause matches, no more. *)
Lemma Is_Errorf (pre post : string) (cause : error) (a : N) (s : string) :
  Is (Some (Errorf pre cause post)) (Some (errorString a s))
  = Is (Some cause) (Some (errorString a s)).
Proof. reflexivity. Qed.

Lemma Is_wraps (pre post : string) (cause : error) :
  Is (Some (Errorf pre cause post)) (Some cause) = true.
Proof.
  unfold Is, errors_Is, Errorf. cbn [errors_is].
  rewrite errors_is_refl. apply orb_true_r.
Qed.

Lemma Is_nil (t : error) : Is None (Some t) = false.
Proof. reflexivity. Qed.

(** A chain matches no two sentinels with different addresses. *)
Lemma Is_exclusive (e : error) (a b : N) (s t : string) :
  chain e = true ->
  a <> b ->
  Is (Some e) (Some (errorString a s)) = true ->
  Is (Some e) (Some (errorString b t)) = false.
Proof.
  intros Hchain Hab.
  unfold Is, errors_Is. rewrite !errors_is_sentinel by exact Hchain.
  intros Ha%N.eqb_eq. apply N.eqb_neq. congruence.
Qed.

(** An error over several errors matches every sentinel one of them
    matches. *)
Lemma Is_wrapErrors (msg : string) (errs : list error) (a : N) (s : string) :
  Is (Some (wrapErrors msg errs)) (Some (errorString a s))
  = existsb (fun e => Is (Some e) (Some (errorString a s))) errs.
Proof. reflexivity. Qed.

Lemma append_empty_r (s : string) : s +:+ "" = s.
Proof.
  induction s as [| c s IH]; [reflexivity |].
  change (String c (s +:+ "") = String c s). f_equal. exact IH.
Qed.

Lemma Error_Errorf (pre : string) (cause : error) :
  Error (Errorf pre cause "") = pre +:+ Error cause.
Proof. unfold Errorf, Error. rewrite append_empty_r. reflexivity. Qed.

(** The default case of the switch. *)
Lemma classifyError_unmatched (err : option error) :
  (forall s, In s (domain_errors ++ auth_errors) -> Is err (Some s) = false) ->
  classifyError err = (500, "INTERNAL_ERROR", "An internal error occurred").
Proof.
  intros Hnone. unfold classifyError.
  rewrite !Hnone by (simpl; tauto). reflexivity.
Qed.

Ltac sentinel_cases H :=
  simpl in H;
  repeat (destruct H as [H | H]; [subst | ]); [ .. | contradiction ].

Ltac unfold_sentinels :=
  unfold ErrValidation, ErrNotFound, ErrAlreadyExists, ErrInvalidInput,
    ErrBusinessRule, ErrDatabase, ErrTransaction, ErrExternal, ErrInternal,
    ErrUnauthorized, ErrForbidden in *.

(** [exclude Hchain His b t]: the chain of [His] does not match the
    sentinel at [b]. *)
Ltac exclude Hchain His b t :=
  lazymatch type of His with
  | Is (Some ?e) (Some (errorString ?a ?s)) = true =>
      rewrite (Is_exclusive e a b s t Hchain ltac:(discriminate) His)
  end.

Ltac status_in_range :=
  cbv [fst snd StatusBadRequest StatusNotFound StatusConflict];
  split; [lia | reflexivity].

(** The first five cases of the switch: whichever of them is taken, the
    status is 400, 404 or 409 and the message is the error's text. *)
Lemma classifyError_domain (e : error) (s : error) :
  In s domain_errors -> Is (Some e) (Some s) = true ->
  (400 <= fst (fst (classifyError (Some e))) < 500)%Z /\
  snd (classifyError (Some e)) = Error e.
Proof.
  intros Hs His. unfold classifyError.
  destruct (Is (Some e) (Some ErrValidation)) eqn:H1; [status_in_range |].
  destruct (Is (Some e) (Some ErrNotFound)) eqn:H2; [status_in_range |].
  destruct (Is (Some e) (Some ErrAlreadyExists)) eqn:H3; [status_in_range |].
  destruct (Is (Some e) (Some ErrInvalidInput)) eqn:H4; [status_in_range |].
  destruct (Is (Some e) (Some ErrBusinessRule)) eqn:H5; [status_in_range |].
  sentinel_cases Hs; congruence.
Qed.

(** A chain that ends in an infrastructure sentinel takes the default
    case. *)
Lemma classifyError_infrastructure_chain (e : error) (s : error) :
  chain e = true ->
  In s infrastructure_errors -> Is (Some e) (Some s) = true ->
  classifyError (Some e) = (500, "INTERNAL_ERROR", "An internal error occurred").
Proof.
  intros Hchain Hs His. unfold classifyError.
  sentinel_cases Hs; unfold_sentinels;
    exclude Hchain His 1%N "validation failed";
    exclude Hchain His 2%N "resource not found";
    exclude Hchain His 3%N "resource already exists";
    exclude Hchain His 4%N "invalid input";
    exclude Hchain His 5%N "business rule violation";
    exclude Hchain His 10%N "unauthorized";
    exclude Hchain His 11%N "forbidden"; reflexivity.
Qed.

(** Counterexample to C8 as stated: [errors.Join(ErrDatabase, ErrNotFound)]
    is or wraps the database sentinel, an error of the internal kind, and
    [classifyError] answers 404, NOT_FOUND and the text of the error, both
    lines of it: the case of [ErrNotFound] comes first in the switch. *)
Lemma joined_database_error_is_not_found :
  exists e : error,
    errors_Join [Some ErrDatabase; Some ErrNotFound] = Some e
    /\ In ErrDatabase infrastructure_errors
    /\ Is (Some e) (Some ErrDatabase) = true
    /\ is_infrastructure (Some e) = true
    /\ classifyError (Some e) = (404, "NOT_FOUND", Error e)
    /\ Error e = Error ErrDatabase +:+ String (Ascii.ascii_of_nat 10) (Error ErrNotFound)
    /\ classifyError (Some e) <> (500, "INTERNAL_ERROR", "An internal error occurred").
Proof.
  eexists. split; [reflexivity |]. split; [simpl; tauto |].
  split; [reflexivity |]. split; [reflexivity |]. split; [reflexivity |].
  split; [reflexivity | discriminate].
Qed.

(** C8, as the code has it.  [classifyError] gives every error that is or
    wraps a domain sentinel (validation, not found, already exists,
    invalid input, business rule) a status between 400 and 499 and the
    error's own [Error()] text as message, also when the error wraps an
    infrastructure sentinel besides.  It gives every error that matches
    none of the sentinels it tests the triple 500, INTERNAL_ERROR, "An
    internal error occurred", which does not depend on the error; an error
    that is or wraps an infrastructure sentinel (database, transaction,
    external, internal) gets that triple if it matches none of the tested
    sentinels, and that is so whenever it is a single chain of wrappers
    around one error.  [WriteError] sends the status and the message of
    [classifyError] and nothing else of the error. *)
Theorem classifyError_domain_or_internal :
  (forall (err : option error) (s : error),
      In s domain_errors -> Is err (Some s) = true ->
      exists e : error, err = Some e /\
        (400 <= fst (fst (classifyError err)) < 500)%Z /\
        snd (classifyError err) = Error e)
  /\ (forall err : option error,
      (forall s, In s (domain_errors ++ auth_errors) -> Is err (Some s) = false) ->
      classifyError err = (500, "INTERNAL_ERROR", "An internal error occurred"))
  /\ (forall (err : option error) (s : error),
      In s infrastructure_errors -> Is err (Some s) = true ->
      (forall d, In d (domain_errors ++ auth_errors) -> Is err (Some d) = false)
      \/ (exists e : error, err = Some e /\ chain e = true) ->
      classifyError err = (500, "INTERNAL_ERROR", "An internal error occurred"))
  /\ (forall (w : ResponseWriter) (r : Request) (err : option error) (log : list LogLine),
      body (fst (WriteError w r err log))
        = body w ++ [ {| resp_Error := snd (classifyError err);
                         resp_Code := snd (fst (classifyError err)) |} ]
      /\ (status_written w = None ->
          status_written (fst (WriteError w r err log))
            = Some (fst (fst (classifyError err))))).
Proof.
  split; [| split; [| split]].
  - intros err s Hs His.
    destruct err as [e|]; [| destruct s; discriminate].
    exists e. split; [reflexivity |]. exact (classifyError_domain e s Hs His).
  - exact classifyError_unmatched.
  - intros err s Hs His [Hnone | (e & -> & Hchain)].
    + exact (classifyError_unmatched err Hnone).
    + exact (classifyError_infrastructure_chain e s Hchain Hs His).
  - intros w r err log. unfold WriteError.
    destruct (classifyError err) as [[status code] message]. simpl.
    split; [reflexivity|]. intros ->. reflexivity.
Qed.

(** *** Concrete errors *)

Example not_found_wrapped :
  classifyError (Wrap (Some ErrNotFound) "order 7")
  = (404, "NOT_FOUND", "order 7: resource not found").
Proof. reflexivity. Qed.

Example unauthorized_fixed_message :
  classifyError (Wrap (Some ErrUnauthorized) "token expired at 12:00")
  = (401, "UNAUTHORIZED", "Authentication required").
Proof. reflexivity. Qed.

Example nil_error_is_internal :
  classifyError None = (500, "INTERNAL_ERROR", "An internal error occurred").
Proof. reflexivity. Qed.

Example joined_nils_are_nil : errors_Join [None; None] = None.
Proof. reflexivity. Qed.

(** Witness of the amended C8: a wrapped not-found error, an error of
    another package, and a wrapped database error. *)
Lemma classifyError_domain_or_internal_witness :
  (exists e : error,
      Wrap (Some ErrNotFound) "order 7" = Some e /\
      400 <= fst (fst (classifyError (Wrap (Some ErrNotFound) "order 7"))) < 500 /\
      snd (classifyError (Wrap (Some ErrNotFound) "order 7")) = Error e)
  /\ classifyError (Some Scenario.ErrConnRefused)
     = (500, "INTERNAL_ERROR", "An internal error occurred")
  /\ classifyError (Wrap (Some ErrDatabase) "insert into orders: deadlock detected")
     = (500, "INTERNAL_ERROR", "An internal error occurred").
Proof.
  destruct classifyError_domain_or_internal as (Hdomain & Hunmatched & Hinfra & _).
  split; [| split].
  - exact (Hdomain (Wrap (Some ErrNotFound) "order 7") ErrNotFound
             (or_intror (or_introl eq_refl)) eq_refl).
  - apply Hunmatched. intros s Hs. simpl in Hs.
    repeat (destruct Hs as [<- | Hs]; [reflexivity |]). contradiction.
  - apply (Hinfra (Wrap (Some ErrDatabase) "insert into orders: deadlock detected")
             ErrDatabase (or_introl eq_refl) eq_refl).
    right. eexists. split; reflexivity.
Defined.

End ErrorsSpec.

(** ** The transaction manager *)

Module TransactionSpec.
Import Errors Go Config Database.

(** Unfolds the calls of the database package down to the driver. *)
Ltac run :=
  unfold WithTransaction, NewPostgresPool, Close, HealthCheck, defer_recover, call,
    Pool_Begin, Pool_Ping, Pool_Close, Tx_Commit, Tx_Rollback,
    pgxpool_ParseConfig, pgxpool_NewWithConfig, bind, ret, panic, log, with_db;
  simpl.

Lemma app_assoc3 {A} (t : list A) (a b c : A) :
  ((t ++ [a]) ++ [b]) ++ [c] = t ++ [a; b; c].
Proof. rewrite <- !app_assoc. reflexivity. Qed.

Section Transactions.
Context {DB : Type} {pgx : Pgx DB}.

Variables (p : Pool) (ctx : Context) (fn : UnitOfWork (DB := DB)) (w : World DB).

Let tm : PostgresTransactionManager := NewPostgresTransactionManager (Some p).
Let txCtx (tx : Tx) : Context := WithValue ctx txKey (Some (Tx_ tx)).
Let result : outcome (any * option error) := fst (WithTransaction tm ctx fn w).
Let after : World DB := snd (WithTransaction tm ctx fn w).

(** The shape of every run in which begin succeeds. *)
Lemma WithTransaction_run (tx : Tx) (d1 : DB) :
  pgx_Begin ctx p (db w) = (inl tx, d1) ->
  WithTransaction tm ctx fn w =
    match fn (txCtx tx) d1 with
    | (Panics q, d2) =>
        (Panics q,
         {| db := snd (pgx_Rollback ctx tx d2); pools := pools w;
            trace := trace w ++ [Begin_ p; Call_ (txCtx tx); Rollback_ tx] |})
    | (Returns (res, Some e), d2) =>
        (Returns (None,
                  Some match fst (pgx_Rollback ctx tx d2) with
                       | Some rbErr =>
                           Errorf "tx error: " e (", rollback error: " +:+ Error rbErr)
                       | None => e
                       end),
         {| db := snd (pgx_Rollback ctx tx d2); pools := pools w;
            trace := trace w ++ [Begin_ p; Call_ (txCtx tx); Rollback_ tx] |})
    | (Returns (res, None), d2) =>
        (Returns match fst (pgx_Commit ctx tx d2) with
                 | Some cerr => (None, Some (Errorf "failed to commit transaction: " cerr ""))
                 | None => (res, None)
                 end,
         {| db := snd (pgx_Commit ctx tx d2); pools := pools w;
            trace := trace w ++ [Begin_ p; Call_ (txCtx tx); Commit_ tx] |})
    | (Exits, d2) =>
        (Exits,
         {| db := d2; pools := pools w;
            trace := trace w ++ [Begin_ p; Call_ (txCtx tx)] |})
    end.
Proof.
  intros Hbegin. subst tm txCtx. run. rewrite Hbegin. simpl.
  destruct (fn _ d1) as [[[res [e|]] | q |] d2]; simpl.
  - destruct (pgx_Rollback ctx tx d2) as [[rbErr|] d3]; simpl;
      rewrite app_assoc3; reflexivity.
  - destruct (pgx_Commit ctx tx d2) as [[cerr|] d3]; simpl;
      rewrite app_assoc3; reflexivity.
  - destruct (pgx_Rollback ctx tx d2) as [rb d3]; simpl.
    rewrite app_assoc3. reflexivity.
  - rewrite <- app_assoc. reflexivity.
Qed.

(** The run in which begin fails. *)
Lemma WithTransaction_begin_error (err : error) (d1 : DB) :
  pgx_Begin ctx p (db w) = (inr err, d1) ->
  WithTransaction tm ctx fn w =
    (Returns (None, Some (Errorf "failed to begin transaction: " err "")),
     {| db := d1; pools := pools w; trace := trace w ++ [Begin_ p] |}).
Proof. intros Hbegin. subst tm. run. rewrite Hbegin. reflexivity. Qed.

(** After a successful begin the calls are begin and the unit of work,
    and one more unless the unit of work has ended the goroutine. *)
Lemma WithTransaction_calls (tx : Tx) (d1 : DB) :
  pgx_Begin ctx p (db w) = (inl tx, d1) ->
  exists rest : list Event,
    trace after = trace w ++ Begin_ p :: Call_ (txCtx tx) :: rest /\
    (fst (fn (txCtx tx) d1) <> Exits ->
     exists fin : Event, rest = [fin] /\ (fin = Commit_ tx \/ fin = Rollback_ tx)) /\
    (fst (fn (txCtx tx) d1) = Exits -> rest = []).
Proof.
  intros Hbegin. subst after. rewrite (WithTransaction_run tx d1 Hbegin).
  destruct (fn (txCtx tx) d1) as [[[res [e|]] | q |] d2]; simpl;
    eexists; (split; [reflexivity |]); split; eauto; try discriminate.
  contradiction.
Qed.

(** C1, as the code has it.  When begin succeeds and the unit of work
    returns or panics, [WithTransaction] makes exactly three calls, in this
    order: begin, the unit of work (on the derived context), and then
    either the commit or the rollback of the transaction begin returned, so
    exactly one of the two; when the unit of work panics the call is the
    rollback and the same panic goes on.  When the unit of work ends its
    goroutine with [runtime.Goexit], the deferred function finds no panic
    to recover and does nothing: begin and the unit of work are the only
    calls, neither commit nor rollback follows, and the goroutine goes on
    exiting.  When begin fails, begin is the only call, no transaction
    exists, and an error is returned. *)
Theorem WithTransaction_begin_work_finish :
  (forall (tx : Tx) (d1 : DB),
      pgx_Begin ctx p (db w) = (inl tx, d1) ->
      (fst (fn (txCtx tx) d1) <> Exits ->
       exists fin : Event,
         trace after = trace w ++ [Begin_ p; Call_ (txCtx tx); fin] /\
         (fin = Commit_ tx \/ fin = Rollback_ tx) /\
         (commits [Begin_ p; Call_ (txCtx tx); fin]
            + rollbacks [Begin_ p; Call_ (txCtx tx); fin] = 1)%nat /\
         (forall q, fst (fn (txCtx tx) d1) = Panics q ->
                    fin = Rollback_ tx /\ result = Panics q))
      /\ (fst (fn (txCtx tx) d1) = Exits ->
          trace after = trace w ++ [Begin_ p; Call_ (txCtx tx)] /\
          (commits [Begin_ p; Call_ (txCtx tx)]
             + rollbacks [Begin_ p; Call_ (txCtx tx)] = 0)%nat /\
          result = Exits))
  /\ (forall (err : error) (d1 : DB),
      pgx_Begin ctx p (db w) = (inr err, d1) ->
      trace after = trace w ++ [Begin_ p] /\
      exists e : error, result = Returns (None, Some e)).
Proof.
  split.
  - intros tx d1 Hbegin. subst result after.
    rewrite (WithTransaction_run tx d1 Hbegin).
    destruct (fn (txCtx tx) d1) as [[[res [e|]] | q |] d2]; simpl.
    + split; [intros _ | discriminate]. exists (Rollback_ tx).
      split; [reflexivity | split; [now right | split; [reflexivity | discriminate]]].
    + split; [intros _ | discriminate]. exists (Commit_ tx).
      split; [reflexivity | split; [now left | split; [reflexivity | discriminate]]].
    + split; [intros _ | discriminate]. exists (Rollback_ tx).
      split; [reflexivity | split; [now right | split; [reflexivity |]]].
      intros q' [= ->]. split; reflexivity.
    + split; [contradiction |]. intros _.
      split; [reflexivity | split; reflexivity].
  - intros err d1 Hbegin. subst result after.
    rewrite (WithTransaction_begin_error err d1 Hbegin). simpl.
    split; [reflexivity | eauto].
Qed.

(** C2. When the unit of work returns an error, the only call after it is
    one rollback (no commit).  If the rollback succeeds, the result is nil
    and the error is the very error the unit of work returned.  If the
    rollback fails, the result is nil and the error is a new one that
    unwraps to the unit of work's error, so [errors.Is] still finds it, and
    whose text spells out both that error and the rollback failure. *)
Theorem WithTransaction_work_error
    (tx : Tx) (d1 d2 : DB) (res : any) (e : error) :
  pgx_Begin ctx p (db w) = (inl tx, d1) ->
  fn (txCtx tx) d1 = (Returns (res, Some e), d2) ->
  trace after = trace w ++ [Begin_ p; Call_ (txCtx tx); Rollback_ tx] /\
  rollbacks [Begin_ p; Call_ (txCtx tx); Rollback_ tx] = 1%nat /\
  commits [Begin_ p; Call_ (txCtx tx); Rollback_ tx] = 0%nat /\
  (fst (pgx_Rollback ctx tx d2) = None -> result = Returns (None, Some e)) /\
  (forall rbErr : error,
      fst (pgx_Rollback ctx tx d2) = Some rbErr ->
      exists both : error,
        result = Returns (None, Some both) /\
        Unwrap both = Some e /\
        Is (Some both) (Some e) = true /\
        Error both = "tx error: " +:+ Error e +:+ ", rollback error: " +:+ Error rbErr).
Proof.
  intros Hbegin Hfn. subst result after.
  rewrite (WithTransaction_run tx d1 Hbegin), Hfn. simpl.
  split; [reflexivity | split; [reflexivity | split; [reflexivity | split]]].
  - intros ->. reflexivity.
  - intros rbErr ->. eexists. split; [reflexivity |].
    split; [reflexivity | split; [apply ErrorsSpec.Is_wraps | reflexivity]].
Qed.

(** C3, as the code has it.  When the unit of work returns a result and no
    error and the commit then fails, the only call after the unit of work
    is that one commit, the result is nil (what the unit of work returned
    is dropped), and the error is a new non-nil one whose text is "failed
    to commit transaction: " followed by the commit failure and which
    unwraps to it.  The new error adds no sentinel: it is of the
    infrastructure kind exactly when the commit failure is, and the
    classifier reports it with the generic internal triple whenever the
    commit failure matches none of the sentinels the classifier tests. *)
Theorem WithTransaction_commit_error
    (tx : Tx) (d1 d2 : DB) (res : any) (cerr : error) :
  pgx_Begin ctx p (db w) = (inl tx, d1) ->
  fn (txCtx tx) d1 = (Returns (res, None), d2) ->
  fst (pgx_Commit ctx tx d2) = Some cerr ->
  exists e : error,
    result = Returns (None, Some e) /\
    trace after = trace w ++ [Begin_ p; Call_ (txCtx tx); Commit_ tx] /\
    Unwrap e = Some cerr /\
    Error e = "failed to commit transaction: " +:+ Error cerr /\
    is_infrastructure (Some e) = is_infrastructure (Some cerr) /\
    ((forall s, In s (domain_errors ++ auth_errors) -> Is (Some cerr) (Some s) = false) ->
     classifyError (Some e) = (500, "INTERNAL_ERROR", "An internal error occurred")).
Proof.
  intros Hbegin Hfn Hcommit. subst result after.
  rewrite (WithTransaction_run tx d1 Hbegin), Hfn, Hcommit. simpl.
  eexists. split; [reflexivity |]. split; [reflexivity |]. split; [reflexivity |].
  split; [apply ErrorsSpec.Error_Errorf |].
  split; [reflexivity |].
  intros Hnone. apply ErrorsSpec.classifyError_unmatched.
  intros s Hs. rewrite <- (Hnone s Hs).
  simpl in Hs. repeat (destruct Hs as [<- | Hs]; [reflexivity |]). contradiction.
Qed.

(** C9. [GetTx] never panics.  On a context derived with the transaction
    stored under the tx key it returns that transaction, and the context
    [WithTransaction] hands to the unit of work is such a context for the
    transaction begin returned; one call follows the unit of work unless
    that has ended the goroutine.  On a context with nothing under the key,
    or with a value that is not a transaction, it returns nil. *)
Theorem GetTx_round_trip :
  (forall c : Context, exists r : option Tx, GetTx c = Returns r)
  /\ (forall (c : Context) (tx : Tx),
      GetTx (WithValue c txKey (Some (Tx_ tx))) = Returns (Some tx))
  /\ (forall (tx : Tx) (d1 : DB),
      pgx_Begin ctx p (db w) = (inl tx, d1) ->
      exists (c : Context) (rest : list Event),
        trace after = trace w ++ Begin_ p :: Call_ c :: rest /\
        GetTx c = Returns (Some tx) /\
        (fst (fn c d1) <> Exits -> exists fin : Event, rest = [fin]))
  /\ (forall c : Context, Value c txKey = None -> GetTx c = Returns None)
  /\ (forall (c : Context) (v : dyn),
      Value c txKey = Some v -> (forall tx : Tx, v <> Tx_ tx) ->
      GetTx c = Returns None).
Proof.
  split; [| split; [| split; [| split]]].
  - intros c. unfold GetTx.
    destruct (Value c txKey) as [[]|]; simpl; eauto.
  - intros c tx. unfold GetTx. simpl.
    destruct (decide (txKey = txKey)) as [_|Hne]; [reflexivity | contradiction].
  - intros tx d1 Hbegin.
    destruct (WithTransaction_calls tx d1 Hbegin) as (rest & Htrace & Hfin & _).
    exists (txCtx tx), rest. split; [exact Htrace |]. split.
    + subst txCtx. unfold GetTx. simpl.
      destruct (decide (txKey = txKey)) as [_|Hne]; [reflexivity | contradiction].
    + intros Hreturns. destruct (Hfin Hreturns) as (fin & -> & _). eauto.
  - intros c Hnone. unfold GetTx. rewrite Hnone. reflexivity.
  - intros c v Hv Hnot. unfold GetTx. rewrite Hv.
    destruct v; try reflexivity. exfalso. eapply Hnot. reflexivity.
Qed.

End Transactions.

(** *** Concrete runs against the scripted database *)

Example scripted_commit :
  WithTransaction (pgx := Scenario.scripted true)
    (NewPostgresTransactionManager (Some 1%positive)) Background
    Scenario.work_ok (Scenario.one_pool Scenario.all_well)
  = (Returns (Some (String_ "order-42"), None),
     {| db := Scenario.all_well;
        pools := pools (Scenario.one_pool Scenario.all_well);
        trace := [Begin_ 1%positive; Call_ (WithValue Background txKey (Some (Tx_ 7%N)));
                  Commit_ 7%N] |}).
Proof. reflexivity. Qed.

Example scripted_nil_pool_panics :
  fst (WithTransaction (pgx := Scenario.scripted true)
         (NewPostgresTransactionManager None) Background
         Scenario.work_ok (Scenario.start Scenario.all_well))
  = Panics nil_dereference.
Proof. reflexivity. Qed.

(** Counterexample to C1 as stated: begin succeeds, the unit of work calls
    [runtime.Goexit], and [WithTransaction] neither commits nor rolls back:
    the transaction stays open while the goroutine exits. *)
Lemma exiting_work_leaves_transaction_open :
  pgx_Begin (Pgx := Scenario.scripted true) Background 1%positive Scenario.all_well
    = (inl 7%N, Scenario.all_well)
  /\ Scenario.work_exits (WithValue Background txKey (Some (Tx_ 7%N))) Scenario.all_well
    = (Exits, Scenario.all_well)
  /\ WithTransaction (pgx := Scenario.scripted true)
       (NewPostgresTransactionManager (Some 1%positive)) Background
       Scenario.work_exits (Scenario.one_pool Scenario.all_well)
     = (Exits,
        {| db := Scenario.all_well;
           pools := pools (Scenario.one_pool Scenario.all_well);
           trace := [Begin_ 1%positive;
                     Call_ (WithValue Background txKey (Some (Tx_ 7%N)))] |})
  /\ commits (trace (snd (WithTransaction (pgx := Scenario.scripted true)
                            (NewPostgresTransactionManager (Some 1%positive)) Background
                            Scenario.work_exits (Scenario.one_pool Scenario.all_well))))
     = 0%nat
  /\ rollbacks (trace (snd (WithTransaction (pgx := Scenario.scripted true)
                              (NewPostgresTransactionManager (Some 1%positive)) Background
                              Scenario.work_exits (Scenario.one_pool Scenario.all_well))))
     = 0%nat.
Proof.
  split; [reflexivity |]. split; [reflexivity |]. split; [reflexivity |].
  split; reflexivity.
Qed.

(** Witness of the amended C1: a unit of work that panics is followed by
    the rollback and the panic goes on; one that exits is followed by
    nothing; a failed begin is the only call. *)
Lemma WithTransaction_begin_work_finish_witness :
  (exists fin : Event,
      trace (snd (WithTransaction (pgx := Scenario.scripted true)
                    (NewPostgresTransactionManager (Some 1%positive)) Background
                    Scenario.work_panics (Scenario.one_pool Scenario.all_well)))
      = [Begin_ 1%positive; Call_ (WithValue Background txKey (Some (Tx_ 7%N))); fin]
      /\ fin = Rollback_ 7%N
      /\ fst (WithTransaction (pgx := Scenario.scripted true)
                (NewPostgresTransactionManager (Some 1%positive)) Background
                Scenario.work_panics (Scenario.one_pool Scenario.all_well))
         = Panics (String_ "index out of range"))
  /\ (trace (snd (WithTransaction (pgx := Scenario.scripted true)
                    (NewPostgresTransactionManager (Some 1%positive)) Background
                    Scenario.work_exits (Scenario.one_pool Scenario.all_well)))
      = [Begin_ 1%positive; Call_ (WithValue Background txKey (Some (Tx_ 7%N)))]
      /\ fst (WithTransaction (pgx := Scenario.scripted true)
                (NewPostgresTransactionManager (Some 1%positive)) Background
                Scenario.work_exits (Scenario.one_pool Scenario.all_well))
         = Exits)
  /\ trace (snd (WithTransaction (pgx := Scenario.scripted true)
                   (NewPostgresTransactionManager (Some 1%positive)) Background
                   Scenario.work_ok (Scenario.one_pool Scenario.begin_fails)))
     = [Begin_ 1%positive].
Proof.
  split; [| split].
  - destruct (proj1 (proj1 (WithTransaction_begin_work_finish (pgx := Scenario.scripted true)
                              1%positive Background Scenario.work_panics
                              (Scenario.one_pool Scenario.all_well))
                           7%N Scenario.all_well eq_refl)
                    ltac:(discriminate))
      as (fin & Htrace & _ & _ & Hpanic).
    exists fin. split; [exact Htrace |].
    exact (Hpanic (String_ "index out of range") eq_refl).
  - destruct (proj2 (proj1 (WithTransaction_begin_work_finish (pgx := Scenario.scripted true)
                              1%positive Background Scenario.work_exits
                              (Scenario.one_pool Scenario.all_well))
                           7%N Scenario.all_well eq_refl)
                    eq_refl)
      as (Htrace & _ & Hexits).
    split; [exact Htrace | exact Hexits].
  - exact (proj1 (proj2 (WithTransaction_begin_work_finish (pgx := Scenario.scripted true)
                           1%positive Background Scenario.work_ok
                           (Scenario.one_pool Scenario.begin_fails))
                        Scenario.ErrConnRefused Scenario.begin_fails eq_refl)).
Defined.

(** Witness of C2: the failing unit of work, with a rollback that succeeds
    and with one that fails. *)
Lemma WithTransaction_work_error_witness :
  fst (WithTransaction (pgx := Scenario.scripted true)
         (NewPostgresTransactionManager (Some 1%positive)) Background
         Scenario.work_fails (Scenario.one_pool Scenario.all_well))
  = Returns (None, Some Scenario.ErrInsufficientFunds)
  /\ exists both : error,
      fst (WithTransaction (pgx := Scenario.scripted true)
             (NewPostgresTransactionManager (Some 1%positive)) Background
             Scenario.work_fails (Scenario.one_pool Scenario.rollback_fails))
      = Returns (None, Some both)
      /\ Unwrap both = Some Scenario.ErrInsufficientFunds
      /\ Error both = "tx error: insufficient funds, rollback error: connection refused".
Proof.
  split.
  - exact (proj1 (proj2 (proj2 (proj2
             (WithTransaction_work_error (pgx := Scenario.scripted true)
                1%positive Background Scenario.work_fails
                (Scenario.one_pool Scenario.all_well)
                7%N Scenario.all_well Scenario.all_well None
                Scenario.ErrInsufficientFunds eq_refl eq_refl)))) eq_refl).
  - destruct (proj2 (proj2 (proj2 (proj2
               (WithTransaction_work_error (pgx := Scenario.scripted true)
                  1%positive Background Scenario.work_fails
                  (Scenario.one_pool Scenario.rollback_fails)
                  7%N Scenario.rollback_fails Scenario.rollback_fails None
                  Scenario.ErrInsufficientFunds eq_refl eq_refl))))
               Scenario.ErrConnRefused eq_refl)
      as (both & Hret & Hunwrap & _ & Htext).
    exists both. split; [exact Hret |]. split; [exact Hunwrap | exact Htext].
Defined.

(** Counterexample to C3 as stated: the unit of work succeeds, the commit
    fails with an error of pgx, and the error [WithTransaction] returns
    matches none of the infrastructure sentinels (database, transaction,
    external, internal). *)
Lemma commit_error_is_not_infrastructure_kind :
  pgx_Begin (Pgx := Scenario.scripted true) Background 1%positive Scenario.commit_fails
    = (inl 7%N, Scenario.commit_fails)
  /\ Scenario.work_ok (WithValue Background txKey (Some (Tx_ 7%N))) Scenario.commit_fails
    = (Returns (Some (String_ "order-42"), None), Scenario.commit_fails)
  /\ pgx_Commit (Pgx := Scenario.scripted true) Background 7%N Scenario.commit_fails
    = (Some Scenario.ErrTxCommitRollback, Scenario.commit_fails)
  /\ exists e : error,
      fst (WithTransaction (pgx := Scenario.scripted true)
             (NewPostgresTransactionManager (Some 1%positive)) Background
             Scenario.work_ok (Scenario.one_pool Scenario.commit_fails))
      = Returns (None, Some e)
      /\ is_infrastructure (Some e) = false
      /\ Is (Some e) (Some ErrTransaction) = false
      /\ Is (Some e) (Some ErrDatabase) = false.
Proof.
  split; [reflexivity |]. split; [reflexivity |]. split; [reflexivity |].
  eexists. split; [reflexivity |]. split; [reflexivity |]. split; reflexivity.
Qed.

(** Witness of the amended C3 on the same run. *)
Lemma WithTransaction_commit_error_witness :
  exists e : error,
    fst (WithTransaction (pgx := Scenario.scripted true)
           (NewPostgresTransactionManager (Some 1%positive)) Background
           Scenario.work_ok (Scenario.one_pool Scenario.commit_fails))
    = Returns (None, Some e)
    /\ Unwrap e = Some Scenario.ErrTxCommitRollback
    /\ classifyError (Some e) = (500, "INTERNAL_ERROR", "An internal error occurred").
Proof.
  destruct (WithTransaction_commit_error (pgx := Scenario.scripted true)
              1%positive Background Scenario.work_ok
              (Scenario.one_pool Scenario.commit_fails)
              7%N Scenario.commit_fails Scenario.commit_fails
              (Some (String_ "order-42")) Scenario.ErrTxCommitRollback
              eq_refl eq_refl eq_refl)
    as (e & Hret & _ & Hunwrap & _ & _ & Hclass).
  exists e. split; [exact Hret |]. split; [exact Hunwrap |].
  apply Hclass. intros s Hs. simpl in Hs.
  repeat (destruct Hs as [<- | Hs]; [reflexivity |]). contradiction.
Defined.

(** Witness of C9: the context of a run, and a context whose tx key holds
    a string. *)
Lemma GetTx_round_trip_witness :
  (exists (c : Context) (rest : list Event),
      trace (snd (WithTransaction (pgx := Scenario.scripted true)
                    (NewPostgresTransactionManager (Some 1%positive)) Background
                    Scenario.work_ok (Scenario.one_pool Scenario.all_well)))
      = Begin_ 1%positive :: Call_ c :: rest
      /\ GetTx c = Returns (Some 7%N)
      /\ (fst (Scenario.work_ok c Scenario.all_well) <> Exits ->
          exists fin : Event, rest = [fin]))
  /\ GetTx Background = Returns None
  /\ GetTx (WithValue Background txKey (Some (String_ "tx"))) = Returns None.
Proof.
  destruct (GetTx_round_trip (pgx := Scenario.scripted true) 1%positive Background
              Scenario.work_ok (Scenario.one_pool Scenario.all_well))
    as (_ & _ & Hrun & Hnone & Hother).
  split; [exact (Hrun 7%N Scenario.all_well eq_refl) |].
  split; [exact (Hnone Background eq_refl) |].
  apply (Hother (WithValue Background txKey (Some (String_ "tx"))) (String_ "tx") eq_refl).
  intros tx. discriminate.
Defined.

End TransactionSpec.

(** ** The connection pool *)

Module PoolSpec.
Import Errors Go Config Database.
Import TransactionSpec.

(** The pool configuration after the five assignments of
    [NewPostgresPool]. *)
Definition tuned (cfg : DatabaseConfig) (poolConfig : PoolConfig) : PoolConfig :=
  {| ConnString := ConnString poolConfig;
     MaxConns := int32 (MaxConnections cfg);
     MinConns := int32 (MaxIdleConnections cfg);
     MaxConnLifetime := ConnectionLifetime cfg;
     MaxConnIdleTime := 30 * Minute;
     HealthCheckPeriod := 1 * Minute |}.

Definition open_pool (config : PoolConfig) : PoolObj :=
  {| pool_config := config; pool_closed := false |}.
Definition closed_pool (config : PoolConfig) : PoolObj :=
  {| pool_config := config; pool_closed := true |}.

Lemma app_assoc4 {A} (t : list A) (a b c d : A) :
  (((t ++ [a]) ++ [b]) ++ [c]) ++ [d] = t ++ [a; b; c; d].
Proof. rewrite <- !app_assoc. reflexivity. Qed.

Lemma app_assoc2 {A} (t : list A) (a b : A) : (t ++ [a]) ++ [b] = t ++ [a; b].
Proof. rewrite <- !app_assoc. reflexivity. Qed.

Ltac six_parts := split; [| split; [| split; [| split; [| split]]]].

Section Pools.
Context {DB : Type} {pgx : Pgx DB}.

(** Closing marks the pool; closing again changes nothing. *)
Lemma close_mark_twice (m : gmap positive PoolObj) (q : positive) :
  alter (fun o => {| pool_config := pool_config o; pool_closed := true |}) q
    (alter (fun o => {| pool_config := pool_config o; pool_closed := true |}) q m)
  = alter (fun o => {| pool_config := pool_config o; pool_closed := true |}) q m.
Proof.
  apply map_eq. intros i. destruct (decide (i = q)) as [-> | Hne].
  - rewrite !lookup_alter_eq. destruct (m !! q); reflexivity.
  - rewrite !lookup_alter_ne by congruence. reflexivity.
Qed.

Lemma fresh_pool_unused (m : gmap positive PoolObj) : m !! fresh (dom m) = None.
Proof. apply not_elem_of_dom. apply is_fresh. Qed.

Variables (ctx : Context) (cfg : DatabaseConfig) (w : World DB).

Let url : string := GetDatabaseURL cfg.
Let q : Pool := fresh (dom (pools w)).

(** Every run of [NewPostgresPool], by what pgx answers. *)
Lemma NewPostgresPool_run :
  NewPostgresPool ctx cfg w =
    match pgx_ParseConfig url with
    | inr perr =>
        (Returns (None, Some (Errorf "unable to parse database config: " perr "")),
         {| db := db w; pools := pools w; trace := trace w ++ [ParseConfig_ url] |})
    | inl pc =>
        match pgx_connect ctx (tuned cfg pc) (db w) with
        | (Some cerr, d1) =>
            (Returns (None, Some (Errorf "unable to create connection pool: " cerr "")),
             {| db := d1; pools := pools w;
                trace := trace w ++ [ParseConfig_ url; NewWithConfig_ (tuned cfg pc)] |})
        | (None, d1) =>
            match pgx_Ping ctx q d1 with
            | (Some perr, d2) =>
                (Returns (None, Some (Errorf "unable to ping database: " perr "")),
                 {| db := d2;
                    pools := <[q := closed_pool (tuned cfg pc)]> (pools w);
                    trace := trace w ++ [ParseConfig_ url; NewWithConfig_ (tuned cfg pc);
                                         Ping_ q; PoolClose_ q] |})
            | (None, d2) =>
                (Returns (Some q, None),
                 {| db := d2;
                    pools := <[q := open_pool (tuned cfg pc)]> (pools w);
                    trace := trace w ++ [ParseConfig_ url; NewWithConfig_ (tuned cfg pc);
                                         Ping_ q] |})
            end
        end
    end.
Proof.
  subst url q. run. fold (tuned cfg).
  destruct (pgx_ParseConfig (GetDatabaseURL cfg)) as [pc | perr]; simpl; [| reflexivity].
  fold (tuned cfg pc).
  destruct (pgx_connect ctx (tuned cfg pc) (db w)) as [[cerr|] d1]; simpl.
  - rewrite app_assoc2. reflexivity.
  - destruct (pgx_Ping ctx _ d1) as [[perr|] d2]; simpl.
    + rewrite app_assoc4, alter_insert_eq. reflexivity.
    + rewrite app_assoc3. reflexivity.
Qed.

Let returned : outcome (option Pool * option error) := fst (NewPostgresPool ctx cfg w).
Let after : World DB := snd (NewPostgresPool ctx cfg w).

(** C6, as the code has it.  [NewPostgresPool] always returns: either a
    pool and no error, or no pool and an error.  If parsing fails, or
    construction fails, no pool was built and none is returned; if the
    ping fails, the pool that was built is closed and none is returned.  In
    each case the error is a new one that names the failed step and
    unwraps to the failure; it adds no sentinel, so it is of the
    infrastructure kind exactly when the failure is.  A pool is returned
    only after a ping of that pool succeeded as the last call, and it is
    then open. *)
Theorem NewPostgresPool_no_partial_pool :
  (exists (pool : option Pool) (err : option error),
      returned = Returns (pool, err) /\ (pool = None <-> err <> None))
  /\ (forall perr : error,
      pgx_ParseConfig url = inr perr ->
      returned = Returns (None, Some (Errorf "unable to parse database config: " perr ""))
      /\ pools after = pools w)
  /\ (forall (pc : PoolConfig) (cerr : error) (d1 : DB),
      pgx_ParseConfig url = inl pc ->
      pgx_connect ctx (tuned cfg pc) (db w) = (Some cerr, d1) ->
      returned = Returns (None, Some (Errorf "unable to create connection pool: " cerr ""))
      /\ pools after = pools w)
  /\ (forall (pc : PoolConfig) (perr : error) (d1 d2 : DB),
      pgx_ParseConfig url = inl pc ->
      pgx_connect ctx (tuned cfg pc) (db w) = (None, d1) ->
      pgx_Ping ctx q d1 = (Some perr, d2) ->
      returned = Returns (None, Some (Errorf "unable to ping database: " perr ""))
      /\ pools after !! q = Some (closed_pool (tuned cfg pc))
      /\ (forall i, i <> q -> pools after !! i = pools w !! i)
      /\ exists t, trace after = t ++ [Ping_ q; PoolClose_ q])
  /\ (forall (e : error),
      (exists pool, returned = Returns (pool, Some e)) ->
      exists cause : error,
        Unwrap e = Some cause /\
        is_infrastructure (Some e) = is_infrastructure (Some cause))
  /\ (forall (pool : Pool) (err : option error),
      returned = Returns (Some pool, err) ->
      err = None /\
      pools w !! pool = None /\
      (exists config, pools after !! pool = Some (open_pool config)) /\
      exists t d1 d2,
        trace after = t ++ [Ping_ pool] /\ pgx_Ping ctx pool d1 = (None, d2)).
Proof.
  subst returned after. rewrite NewPostgresPool_run.
  destruct (pgx_ParseConfig url) as [pc0 | perr0].
  2:{ simpl. six_parts.
      - eexists _, _. split; [reflexivity |]. split; [discriminate | reflexivity].
      - intros perr [= ->]. split; reflexivity.
      - intros pc cerr d1. discriminate.
      - intros pc perr d1 d2. discriminate.
      - intros e [pool [= <- <-]]. eexists. split; reflexivity.
      - intros pool err. discriminate. }
  destruct (pgx_connect ctx (tuned cfg pc0) (db w)) as [[cerr0|] d1'] eqn:Hconn.
  { simpl. six_parts.
    - eexists _, _. split; [reflexivity |]. split; [discriminate | reflexivity].
    - intros perr. discriminate.
    - intros pc cerr d1 [= <-]. rewrite Hconn. intros [= -> ->]. split; reflexivity.
    - intros pc perr d1 d2 [= <-]. rewrite Hconn. discriminate.
    - intros e [pool [= <- <-]]. eexists. split; reflexivity.
    - intros pool err. discriminate. }
  destruct (pgx_Ping ctx q d1') as [[perr0|] d2'] eqn:Hping.
  { simpl. six_parts.
    - eexists _, _. split; [reflexivity |]. split; [discriminate | reflexivity].
    - intros perr. discriminate.
    - intros pc cerr d1 [= <-]. rewrite Hconn. discriminate.
    - intros pc perr d1 d2 [= <-]. rewrite Hconn. intros [= <-]. rewrite Hping. intros [= -> ->].
      split; [reflexivity |]. split; [apply lookup_insert_eq |].
      split; [intros i Hi; apply lookup_insert_ne; congruence |].
      eexists (_ ++ [_; _]). rewrite <- app_assoc. reflexivity.
    - intros e [pool [= <- <-]]. eexists. split; reflexivity.
    - intros pool err. discriminate. }
  simpl. six_parts.
  - eexists _, _. split; [reflexivity |]. split; [discriminate | congruence].
  - intros perr. discriminate.
  - intros pc cerr d1 [= <-]. rewrite Hconn. discriminate.
  - intros pc perr d1 d2 [= <-]. rewrite Hconn. intros [= <-]. rewrite Hping. discriminate.
  - intros e [pool [=]].
  - intros pool err [= <- <-].
    split; [reflexivity |]. split; [apply fresh_pool_unused |].
    split; [exists (tuned cfg pc0); apply lookup_insert_eq |].
    eexists (_ ++ [_; _]), d1', d2'.
    split; [rewrite <- app_assoc; reflexivity | exact Hping].
Qed.

(** C7. [Close] on a nil pool returns at once and changes nothing.
    [Close] on a pool returns, and a second [Close] on the same pool
    returns too and leaves the pools and the database as the first left
    them.  Whatever [NewPostgresPool] returned, pool or nil, [Close] on it
    returns, and a pool that was returned is closed afterwards. *)
Theorem Close_idempotent_nil_safe :
  (forall w0 : World DB, Close None w0 = (Returns tt, w0))
  /\ (forall (pool : Pool) (w0 : World DB),
      exists w1 w2 : World DB,
        Close (Some pool) w0 = (Returns tt, w1) /\
        Close (Some pool) w1 = (Returns tt, w2) /\
        pools w2 = pools w1 /\ db w2 = db w1 /\
        (forall o, pools w0 !! pool = Some o ->
                   pools w1 !! pool = Some (closed_pool (pool_config o))))
  /\ (exists (pool : option Pool) (err : option error) (w2 : World DB),
      returned = Returns (pool, err) /\
      Close pool after = (Returns tt, w2) /\
      (forall i, pool = Some i ->
                 exists o, pools w2 !! i = Some o /\ pool_closed o = true)).
Proof.
  split; [| split].
  - intros w0. reflexivity.
  - intros pool w0. eexists _, _. run.
    split; [reflexivity |]. split; [reflexivity |]. simpl.
    split; [apply close_mark_twice |]. split; [reflexivity |].
    intros o Ho. rewrite lookup_alter_eq, Ho. reflexivity.
  - subst returned after. rewrite NewPostgresPool_run.
    destruct (pgx_ParseConfig url) as [pc | perr0].
    2:{ eexists None, _, _. simpl. split; [reflexivity |].
        split; [reflexivity | discriminate]. }
    destruct (pgx_connect ctx (tuned cfg pc) (db w)) as [[cerr0|] d1'].
    { eexists None, _, _. simpl. split; [reflexivity |].
      split; [reflexivity | discriminate]. }
    destruct (pgx_Ping ctx q d1') as [[perr0|] d2'].
    { eexists None, _, _. simpl. split; [reflexivity |].
      split; [reflexivity | discriminate]. }
    eexists (Some q), _, _. simpl. split; [reflexivity |].
    run. split; [reflexivity |].
    intros i [= <-]. exists (closed_pool (tuned cfg pc)).
    split; [| reflexivity].
    cbn [pools]. rewrite lookup_alter_eq, lookup_insert_eq. reflexivity.
Qed.

End Pools.

(** *** Concrete runs against the scripted database *)

Example scripted_open :
  fst (NewPostgresPool (pgx := Scenario.scripted true) Background Scenario.local_db
         (Scenario.start Scenario.all_well))
  = Returns (Some 1%positive, None).
Proof. reflexivity. Qed.

Example local_db_url :
  GetDatabaseURL Scenario.local_db
  = "host=localhost port=5432 user=postgres password=secret dbname=logistics_db sslmode=disable".
Proof. reflexivity. Qed.

Example int32_wraps : int32 (2 ^ 31 + 5) = - 2 ^ 31 + 5.
Proof. reflexivity. Qed.

(** Counterexample to C6 as stated: the ping fails with an error of pgx;
    no pool is returned and the pool that was built is closed, but the error
    returned matches none of the infrastructure sentinels. *)
Lemma ping_error_is_not_infrastructure_kind :
  pgx_Ping (Pgx := Scenario.scripted true) Background 1%positive Scenario.ping_fails
    = (Some Scenario.ErrConnRefused, Scenario.ping_fails)
  /\ exists e : error,
      fst (NewPostgresPool (pgx := Scenario.scripted true) Background Scenario.local_db
             (Scenario.start Scenario.ping_fails))
      = Returns (None, Some e)
      /\ Error e = "unable to ping database: connection refused"
      /\ is_infrastructure (Some e) = false
      /\ Is (Some e) (Some ErrDatabase) = false.
Proof.
  split; [reflexivity |].
  eexists. split; [reflexivity |]. split; [reflexivity |]. split; reflexivity.
Qed.

(** Witness of the amended C6: a failed parse, a failed ping, and an
    opened pool. *)
Lemma NewPostgresPool_no_partial_pool_witness :
  fst (NewPostgresPool (pgx := Scenario.scripted false) Background Scenario.local_db
         (Scenario.start Scenario.all_well))
  = Returns (None, Some (Errorf "unable to parse database config: "
                                Scenario.ErrBadConnString ""))
  /\ (fst (NewPostgresPool (pgx := Scenario.scripted true) Background Scenario.local_db
             (Scenario.start Scenario.ping_fails))
      = Returns (None, Some (Errorf "unable to ping database: " Scenario.ErrConnRefused ""))
      /\ exists config : PoolConfig,
          pools (snd (NewPostgresPool (pgx := Scenario.scripted true) Background
                        Scenario.local_db (Scenario.start Scenario.ping_fails)))
            !! 1%positive
          = Some (closed_pool config))
  /\ exists config : PoolConfig,
      pools (snd (NewPostgresPool (pgx := Scenario.scripted true) Background
                    Scenario.local_db (Scenario.start Scenario.all_well)))
        !! 1%positive
      = Some (open_pool config).
Proof.
  split; [| split].
  - exact (proj1 (proj1 (proj2
             (NewPostgresPool_no_partial_pool (pgx := Scenario.scripted false)
                Background Scenario.local_db (Scenario.start Scenario.all_well)))
             Scenario.ErrBadConnString eq_refl)).
  - destruct (proj1 (proj2 (proj2 (proj2
               (NewPostgresPool_no_partial_pool (pgx := Scenario.scripted true)
                  Background Scenario.local_db (Scenario.start Scenario.ping_fails)))))
               (Scenario.parsed_defaults (GetDatabaseURL Scenario.local_db))
               Scenario.ErrConnRefused Scenario.ping_fails Scenario.ping_fails
               eq_refl eq_refl eq_refl)
      as (Hret & Hclosed & _ & _).
    split; [exact Hret |]. eexists. exact Hclosed.
  - destruct (proj2 (proj2 (proj2 (proj2 (proj2
               (NewPostgresPool_no_partial_pool (pgx := Scenario.scripted true)
                  Background Scenario.local_db (Scenario.start Scenario.all_well))))))
               1%positive None eq_refl)
      as (_ & _ & Hopen & _).
    exact Hopen.
Defined.

(** Witness of C7 on the scripted database: closing the pool that was
    opened, twice. *)
Lemma Close_idempotent_nil_safe_witness :
  exists w1 w2 : World Scenario.Script,
    Close (Some 1%positive)
      (Scenario.one_pool Scenario.all_well) = (Returns tt, w1)
    /\ Close (Some 1%positive) w1 = (Returns tt, w2)
    /\ pools w2 = pools w1
    /\ pools w1 !! 1%positive = Some (closed_pool (Scenario.parsed_defaults "")).
Proof.
  destruct (proj1 (proj2
              (Close_idempotent_nil_safe (pgx := Scenario.scripted true)
                 Background Scenario.local_db (Scenario.start Scenario.all_well)))
              1%positive (Scenario.one_pool Scenario.all_well))
    as (w1 & w2 & Hfirst & Hsecond & Hpools & _ & Hclosed).
  exists w1, w2. split; [exact Hfirst |]. split; [exact Hsecond |].
  split; [exact Hpools |]. exact (Hclosed _ eq_refl).
Defined.

End PoolSpec.

(** ** The server lifecycle *)

Module ServerSpec.
Import Errors Go Config Server.

Ltac run := unfold Start, set_Addr, bind, ret, logger, record, lift; simpl.

Definition info (msg : string) (fields : list Field) : LogLine :=
  {| log_level := "info"; log_msg := msg; log_fields := fields |}.

Section Lifecycle.
Context {NET : Type} {http : Http NET} {Hd : Type}.

Variables (s : Server Hd) (port : Z) (w : World NET).

Let addr : string := ":" +:+ pretty port.
Let drainCtx : Context := WithTimeout Background (ShutdownTimeout (config s)).
Let returned : outcome (option error) := fst (Start s port w).
Let after : World NET := snd (Start s port w).

(** What [Start] returns and which calls it makes, by what the [select]
    receives and what [Shutdown] and [Close] answer. *)
Lemma Start_run :
  (returned, trace after) =
    match http_select addr (net w) with
    | (serverErrors err, n1) =>
        (Returns (Some (Errorf "server error: " err "")),
         trace w ++ [ListenAndServe_ addr; Notify_ [Interrupt; SIGTERM]])
    | (shutdown sig, n1) =>
        match http_Shutdown drainCtx n1 with
        | (None, n2) =>
            (Returns None,
             trace w ++ [ListenAndServe_ addr; Notify_ [Interrupt; SIGTERM];
                         Shutdown_ drainCtx])
        | (Some err, n2) =>
            (Returns (Some match fst (http_Close n2) with
                           | Some closeErr => Errorf "force close error: " closeErr ""
                           | None => Errorf "graceful shutdown error: " err ""
                           end),
             trace w ++ [ListenAndServe_ addr; Notify_ [Interrupt; SIGTERM];
                         Shutdown_ drainCtx; Close_])
        end
    end.
Proof.
  subst returned after addr drainCtx. run.
  destruct (http_select _ (net w)) as [[err | sig] n1]; simpl.
  - rewrite <- app_assoc. reflexivity.
  - destruct (http_Shutdown _ n1) as [[err|] n2]; simpl.
    + destruct (http_Close n2) as [[closeErr|] n3]; simpl;
        rewrite <- !app_assoc; reflexivity.
    + rewrite <- !app_assoc. reflexivity.
Qed.

(** C4. When the [select] receives a signal and the drain fails (as it
    does when the shutdown timeout expires first), [Start] then calls
    [Close] on the server, as its last call.  If that close fails, [Start]
    returns an error that wraps the close failure; otherwise it returns an
    error that wraps the failure of the drain.  In neither case does it
    return nil. *)
Theorem Start_failed_drain_forces_close
    (sig : Signal) (n1 n2 : NET) (err : error) :
  http_select addr (net w) = (shutdown sig, n1) ->
  http_Shutdown drainCtx n1 = (Some err, n2) ->
  trace after = trace w ++ [ListenAndServe_ addr; Notify_ [Interrupt; SIGTERM];
                            Shutdown_ drainCtx; Close_]
  /\ returned <> Returns None
  /\ (forall closeErr : error,
      fst (http_Close n2) = Some closeErr ->
      returned = Returns (Some (Errorf "force close error: " closeErr "")) /\
      Is (Some (Errorf "force close error: " closeErr "")) (Some closeErr) = true)
  /\ (fst (http_Close n2) = None ->
      returned = Returns (Some (Errorf "graceful shutdown error: " err "")) /\
      Is (Some (Errorf "graceful shutdown error: " err "")) (Some err) = true).
Proof.
  intros Hsel Hdrain. pose proof Start_run as Hrun.
  rewrite Hsel, Hdrain in Hrun. injection Hrun as -> ->.
  split; [reflexivity |]. split; [discriminate |]. split.
  - intros closeErr ->. split; [reflexivity | apply ErrorsSpec.Is_wraps].
  - intros ->. split; [reflexivity | apply ErrorsSpec.Is_wraps].
Qed.

(** C5. When the [select] receives a signal and the drain succeeds,
    [Start] returns nil, and [Shutdown] under the configured timeout was
    its last call.  When the [select] receives the error of the serve
    goroutine instead, [Start] returns an error that wraps that error under
    "server error: ", and attempts no shutdown. *)
Theorem Start_clean_shutdown_or_server_error :
  (forall (sig : Signal) (n1 n2 : NET),
      http_select addr (net w) = (shutdown sig, n1) ->
      http_Shutdown drainCtx n1 = (None, n2) ->
      returned = Returns None /\
      trace after = trace w ++ [ListenAndServe_ addr; Notify_ [Interrupt; SIGTERM];
                                Shutdown_ drainCtx])
  /\ (forall (err : error) (n1 : NET),
      http_select addr (net w) = (serverErrors err, n1) ->
      returned = Returns (Some (Errorf "server error: " err "")) /\
      Unwrap (Errorf "server error: " err "") = Some err /\
      Error (Errorf "server error: " err "") = "server error: " +:+ Error err /\
      trace after = trace w ++ [ListenAndServe_ addr; Notify_ [Interrupt; SIGTERM]]).
Proof.
  pose proof Start_run as Hrun. split.
  - intros sig n1 n2 Hsel Hdrain. rewrite Hsel, Hdrain in Hrun.
    injection Hrun as -> ->. split; reflexivity.
  - intros err n1 Hsel. rewrite Hsel in Hrun. injection Hrun as -> ->.
    split; [reflexivity |]. split; [reflexivity |].
    split; [apply ErrorsSpec.Error_Errorf | reflexivity].
Qed.

End Lifecycle.

(** *** Concrete runs against the timed server *)

Definition draining (inflight : Z) (close_error : option error) : Scenario.Net :=
  {| Scenario.listener_error := None; Scenario.signal := SIGTERM;
     Scenario.inflight := inflight; Scenario.close_error := close_error |}.

Definition port_taken : Scenario.Net :=
  {| Scenario.listener_error := Some Scenario.ErrAddrInUse; Scenario.signal := SIGTERM;
     Scenario.inflight := 0; Scenario.close_error := None |}.

Example timed_out_drain :
  fst (Start (http := Scenario.timed) (NewServer tt Scenario.two_seconds) 8080
         (Scenario.boot (draining (5 * Second) None)))
  = Returns (Some (wrapError "graceful shutdown error: context deadline exceeded"
                             Scenario.DeadlineExceeded)).
Proof. reflexivity. Qed.

Example listen_address :
  trace (snd (Start (http := Scenario.timed) (NewServer tt Scenario.two_seconds) 8080
                (Scenario.boot port_taken)))
  = [ListenAndServe_ ":8080"; Notify_ [Interrupt; SIGTERM]].
Proof. reflexivity. Qed.

(** Witness of C4: two seconds of shutdown timeout, five seconds of work
    in flight; once with a close that succeeds, once with one that fails. *)
Lemma Start_failed_drain_forces_close_witness :
  (fst (Start (http := Scenario.timed) (NewServer tt Scenario.two_seconds) 8080
          (Scenario.boot (draining (5 * Second) None)))
   = Returns (Some (Errorf "graceful shutdown error: " Scenario.DeadlineExceeded ""))
   /\ Is (Some (Errorf "graceful shutdown error: " Scenario.DeadlineExceeded ""))
         (Some Scenario.DeadlineExceeded) = true)
  /\ fst (Start (http := Scenario.timed) (NewServer tt Scenario.two_seconds) 8080
            (Scenario.boot (draining (5 * Second) (Some Scenario.ErrConnRefused))))
     = Returns (Some (Errorf "force close error: " Scenario.ErrConnRefused "")).
Proof.
  split.
  - exact (proj2 (proj2 (proj2
             (Start_failed_drain_forces_close (http := Scenario.timed)
                (NewServer tt Scenario.two_seconds) 8080
                (Scenario.boot (draining (5 * Second) None))
                SIGTERM (draining (5 * Second) None) (draining (5 * Second) None)
                Scenario.DeadlineExceeded eq_refl eq_refl))) eq_refl).
  - exact (proj1 (proj1 (proj2 (proj2
             (Start_failed_drain_forces_close (http := Scenario.timed)
                (NewServer tt Scenario.two_seconds) 8080
                (Scenario.boot (draining (5 * Second) (Some Scenario.ErrConnRefused)))
                SIGTERM (draining (5 * Second) (Some Scenario.ErrConnRefused))
                (draining (5 * Second) (Some Scenario.ErrConnRefused))
                Scenario.DeadlineExceeded eq_refl eq_refl)))
             Scenario.ErrConnRefused eq_refl)).
Defined.

(** Witness of C5: a drain that needs one second of the two, and a port
    that is already taken. *)
Lemma Start_clean_shutdown_or_server_error_witness :
  fst (Start (http := Scenario.timed) (NewServer tt Scenario.two_seconds) 8080
         (Scenario.boot (draining (1 * Second) None)))
  = Returns None
  /\ fst (Start (http := Scenario.timed) (NewServer tt Scenario.two_seconds) 8080
            (Scenario.boot port_taken))
     = Returns (Some (Errorf "server error: " Scenario.ErrAddrInUse "")).
Proof.
  split.
  - exact (proj1 (proj1
             (Start_clean_shutdown_or_server_error (http := Scenario.timed)
                (NewServer tt Scenario.two_seconds) 8080
                (Scenario.boot (draining (1 * Second) None)))
             SIGTERM (draining (1 * Second) None) (draining (1 * Second) None)
             eq_refl eq_refl)).
  - exact (proj1 (proj2
             (Start_clean_shutdown_or_server_error (http := Scenario.timed)
                (NewServer tt Scenario.two_seconds) 8080 (Scenario.boot port_taken))
             Scenario.ErrAddrInUse port_taken eq_refl)).
Defined.

End ServerSpec.

(** ** The environment helpers *)

Module ConfigSpec.
Import Errors Go Config.

Section Env.
Variable Atoi : string -> Z + error.
Variable ParseDuration : string -> Z + error.
Variable TrimSpace : string -> string.
















End Env.

(** *** Concrete environments *)

Example Atoi_port : Scenario.Atoi "8080" = inl 8080.
Proof. reflexivity. Qed.

Example Atoi_negative : Scenario.Atoi "-17" = inl (-17).
Proof. reflexivity. Qed.

Example Atoi_malformed : Scenario.Atoi "80a80" = inr Scenario.ErrSyntax.
Proof. reflexivity. Qed.

Example Atoi_overflow : Scenario.Atoi "9223372036854775808" = inr Scenario.ErrRange.
Proof. reflexivity. Qed.

Example seconds_parse : Scenario.ParseSeconds "30s" = inl (30 * Second).
Proof. reflexivity. Qed.

Example port_read :
  getEnvAsInt Scenario.Atoi {[ "APP_PORT" := "9090" ]} "APP_PORT" 8080 = 9090.
Proof. reflexivity. Qed.

Example split_origins :
  split_comma "" "a.example, b.example,," = ["a.example"; " b.example"; ""; ""].
Proof. reflexivity. Qed.


End ConfigSpec.

(** * Further properties of the packages *)

(** ** Wrapping and the response writer *)

Module ErrorsLaws.
Import Errors.

(** The status and the code depend on an error only through the sentinels
    it matches. *)
Lemma classifyError_by_matches (err1 err2 : option error) :
  (forall a s, Is err1 (Some (errorString a s)) = Is err2 (Some (errorString a s))) ->
  fst (classifyError err1) = fst (classifyError err2).
Proof.
  intros Hsame. unfold classifyError. ErrorsSpec.unfold_sentinels.
  rewrite !Hsame.
  repeat (destruct (Is err2 _); [reflexivity |]). reflexivity.
Qed.

Lemma Is_Wrap (err : option error) (message : string) (a : N) (s : string) :
  Is (Wrap err message) (Some (errorString a s)) = Is err (Some (errorString a s)).
Proof. destruct err as [e|]; reflexivity. Qed.

(** X1. [Wrap] keeps nil nil, and on an error it returns a new error that
    unwraps to it and whose text is the message, a colon and the old
    text.  Wrapping changes no match against an [errors.New] value, so the
    classifier gives the wrapped error the status and the code of the
    original, however many times it is wrapped.  [Wrapf] is [Wrap] on the
    rendered message. *)
Theorem Wrap_keeps_kind (err : option error) (message : string) :
  Wrap None message = None
  /\ (forall a s,
        Is (Wrap err message) (Some (errorString a s)) = Is err (Some (errorString a s)))
  /\ fst (classifyError (Wrap err message)) = fst (classifyError err)
  /\ (forall outer : string,
        fst (classifyError (Wrap (Wrap err message) outer)) = fst (classifyError err))
  /\ match err with
     | Some e =>
         exists e' : error,
           Wrap err message = Some e' /\ Unwrap e' = Some e /\
           Error e' = message +:+ ": " +:+ Error e
     | None => True
     end
  /\ (forall (A : Type) (Sprintf : string -> list A -> string) (format : string)
             (args : list A),
        Wrapf Sprintf err format args = Wrap err (Sprintf format args)).
Proof.
  split; [reflexivity |].
  split; [apply Is_Wrap |].
  split; [apply classifyError_by_matches, Is_Wrap |].
  split.
  { intros outer. apply classifyError_by_matches. intros a s.
    rewrite !Is_Wrap. reflexivity. }
  split.
  - destruct err as [e|]; [| exact I].
    eexists. split; [reflexivity |]. split; [reflexivity |].
    unfold Errorf, Error. rewrite ErrorsSpec.append_empty_r.
    clear. induction message as [| c m IH]; [reflexivity |].
    change (String c ((m +:+ ": ") +:+ Error e) = String c (m +:+ ": " +:+ Error e)).
    f_equal. exact IH.
  - intros A Sprintf format args. destruct err; reflexivity.
Qed.

(** The switch tests the five domain sentinels before the two
    authentication sentinels. *)
Lemma classifyError_no_domain (err : option error) :
  (forall s, In s domain_errors -> Is err (Some s) = false) ->
  classifyError err =
    if Is err (Some ErrUnauthorized) then (401, "UNAUTHORIZED", "Authentication required")
    else if Is err (Some ErrForbidden) then (403, "FORBIDDEN", "Access denied")
    else (500, "INTERNAL_ERROR", "An internal error occurred").
Proof.
  intros Hnone. unfold classifyError.
  rewrite !Hnone by (simpl; tauto). reflexivity.
Qed.

(** A chain that matches one of the two authentication sentinels matches
    no domain sentinel. *)
Lemma chain_auth_no_domain (e : error) (t : error) :
  ErrorsSpec.chain e = true ->
  In t auth_errors -> Is (Some e) (Some t) = true ->
  forall s, In s domain_errors -> Is (Some e) (Some s) = false.
Proof.
  intros Hchain Ht His s Hs.
  ErrorsSpec.sentinel_cases Ht; ErrorsSpec.sentinel_cases Hs;
    ErrorsSpec.unfold_sentinels;
    refine (ErrorsSpec.Is_exclusive e _ _ _ _ Hchain _ His); discriminate.
Qed.

(** X2. An error that is or wraps [ErrUnauthorized] and none of the five
    domain sentinels gets 401 and the fixed text "Authentication
    required"; one that is or wraps [ErrForbidden], and neither a domain
    sentinel nor [ErrUnauthorized], gets 403 and "Access denied".  An error
    that is a single chain of wrappers matches one sentinel at most, so
    for it the first match decides.  For every error outside the five
    domain sentinels the message is one of three constants, so it never
    carries text of the error. *)
Theorem classifyError_fixed_messages :
  (forall err : option error,
      (forall s, In s domain_errors -> Is err (Some s) = false) ->
      Is err (Some ErrUnauthorized) = true ->
      classifyError err = (401, "UNAUTHORIZED", "Authentication required"))
  /\ (forall err : option error,
      (forall s, In s domain_errors -> Is err (Some s) = false) ->
      Is err (Some ErrUnauthorized) = false ->
      Is err (Some ErrForbidden) = true ->
      classifyError err = (403, "FORBIDDEN", "Access denied"))
  /\ (forall e : error,
      ErrorsSpec.chain e = true ->
      (Is (Some e) (Some ErrUnauthorized) = true ->
       classifyError (Some e) = (401, "UNAUTHORIZED", "Authentication required"))
      /\ (Is (Some e) (Some ErrForbidden) = true ->
          classifyError (Some e) = (403, "FORBIDDEN", "Access denied")))
  /\ (forall err : option error,
      (forall s, In s domain_errors -> Is err (Some s) = false) ->
      In (snd (classifyError err))
         ["Authentication required"; "Access denied"; "An internal error occurred"]).
Proof.
  split; [| split; [| split]].
  - intros err Hnone His. rewrite (classifyError_no_domain err Hnone), His. reflexivity.
  - intros err Hnone Hnot His.
    rewrite (classifyError_no_domain err Hnone), Hnot, His. reflexivity.
  - intros e Hchain. split; intros His.
    + rewrite classifyError_no_domain, His; [reflexivity |].
      apply (chain_auth_no_domain e ErrUnauthorized Hchain); [simpl; tauto | exact His].
    + rewrite classifyError_no_domain, His.
      * ErrorsSpec.unfold_sentinels.
        rewrite (ErrorsSpec.Is_exclusive e 11%N 10%N "forbidden" "unauthorized" Hchain
                   ltac:(discriminate) His).
        reflexivity.
      * apply (chain_auth_no_domain e ErrForbidden Hchain); [simpl; tauto | exact His].
  - intros err Hnone. rewrite (classifyError_no_domain err Hnone).
    destruct (Is err (Some ErrUnauthorized)); [simpl; tauto |].
    destruct (Is err (Some ErrForbidden)); simpl; tauto.
Qed.

(** An error that wraps [ErrForbidden] and [ErrValidation] at once is a
    validation error for the classifier. *)
Example forbidden_and_invalid :
  classifyError (Some (Errorf2 "" ErrForbidden " / " ErrValidation ""))
  = (400, "VALIDATION_ERROR", "forbidden / validation failed").
Proof. reflexivity. Qed.

Lemma classifyError_fixed_messages_witness :
  classifyError (Wrap (Some ErrForbidden) "user 7 on /admin")
  = (403, "FORBIDDEN", "Access denied")
  /\ classifyError (Wrap (Some ErrUnauthorized) "token expired")
     = (401, "UNAUTHORIZED", "Authentication required")
  /\ classifyError (errors_Join [Some ErrUnauthorized; Some ErrDatabase])
     = (401, "UNAUTHORIZED", "Authentication required")
  /\ In (snd (classifyError (Some Scenario.ErrConnRefused)))
        ["Authentication required"; "Access denied"; "An internal error occurred"].
Proof.
  destruct classifyError_fixed_messages as (Hunauth & Hforbidden & Hchain & Hfixed).
  split; [| split; [| split]].
  - apply (Hforbidden (Wrap (Some ErrForbidden) "user 7 on /admin")); [| reflexivity ..].
    intros s Hs. simpl in Hs.
    repeat (destruct Hs as [<- | Hs]; [reflexivity |]). contradiction.
  - exact (proj1 (Hchain (wrapError "token expired: unauthorized" ErrUnauthorized) eq_refl)
             eq_refl).
  - apply (Hunauth (errors_Join [Some ErrUnauthorized; Some ErrDatabase])); [| reflexivity].
    intros s Hs. simpl in Hs.
    repeat (destruct Hs as [<- | Hs]; [reflexivity |]). contradiction.
  - apply Hfixed. intros s Hs. simpl in Hs.
    repeat (destruct Hs as [<- | Hs]; [reflexivity |]). contradiction.
Defined.

(** X3. The response [WriteError] writes depends on the error only
    through its classification: two errors with the same status, code and
    message leave the same response writer.  In particular all errors that
    match none of the tested sentinels give one and the same response.
    The log line it adds is at level error and holds the error itself. *)
Theorem WriteError_response_by_class
    (w : ResponseWriter) (r : Request) (err1 err2 : option error) (log : list LogLine) :
  (classifyError err1 = classifyError err2 ->
   fst (WriteError w r err1 log) = fst (WriteError w r err2 log))
  /\ ((forall s, In s (domain_errors ++ auth_errors) -> Is err1 (Some s) = false) ->
      (forall s, In s (domain_errors ++ auth_errors) -> Is err2 (Some s) = false) ->
      fst (WriteError w r err1 log) = fst (WriteError w r err2 log))
  /\ (exists line : LogLine,
        snd (WriteError w r err1 log) = log ++ [line] /\
        log_level line = "error" /\
        In (FError err1) (log_fields line))
  /\ Header (fst (WriteError w r err1 log)) !! "Content-Type" = Some "application/json".
Proof.
  assert (Hclass : classifyError err1 = classifyError err2 ->
                   fst (WriteError w r err1 log) = fst (WriteError w r err2 log)).
  { intros Heq. unfold WriteError. rewrite Heq.
    destruct (classifyError err2) as [[status code] message]. reflexivity. }
  split; [exact Hclass |]. split.
  - intros H1 H2. apply Hclass.
    rewrite (ErrorsSpec.classifyError_unmatched _ H1).
    rewrite (ErrorsSpec.classifyError_unmatched _ H2). reflexivity.
  - unfold WriteError.
    destruct (classifyError err1) as [[status code] message]. simpl. split.
    + eexists. split; [reflexivity |]. split; [reflexivity |]. simpl. tauto.
    + apply lookup_insert_eq.
Qed.

Lemma WriteError_response_by_class_witness :
  fst (WriteError {| Header := ∅; status_written := None; body := [] |}
         {| URL_Path := "/api/v1/orders"; Method := "POST" |}
         (Some Scenario.ErrConnRefused) [])
  = fst (WriteError {| Header := ∅; status_written := None; body := [] |}
           {| URL_Path := "/api/v1/orders"; Method := "POST" |}
           (Wrap (Some ErrDatabase) "insert order") []).
Proof.
  apply (proj1 (WriteError_response_by_class
                  {| Header := ∅; status_written := None; body := [] |}
                  {| URL_Path := "/api/v1/orders"; Method := "POST" |}
                  (Some Scenario.ErrConnRefused)
                  (Wrap (Some ErrDatabase) "insert order") [])).
  reflexivity.
Defined.

End ErrorsLaws.

(** ** Validation and loading *)

Module ConfigLaws.
Import Errors Go Config.

(** No message collected so far. *)
Definition clean (v : Validator) : bool :=
  match errors v with
  | [] => true
  | _ :: _ => false
  end.

(** What [Validate] asks of a configuration. *)
Definition valid_config (c : Config) : Prop :=
  In (Environment (App c)) ["development"; "staging"; "production"]
  /\ 1 <= App_Port (App c) <= 65535
  /\ In (LogLevel (App c)) ["debug"; "info"; "warn"; "error"]
  /\ Host (Database c) <> ""
  /\ 1 <= DB_Port (Database c) <= 65535
  /\ Name (Database c) <> ""
  /\ User (Database c) <> ""
  /\ Password (Database c) <> ""
  /\ In (SSLMode (Database c)) ["disable"; "require"; "verify-full"]
  /\ 1 <= MaxConnections (Database c)
  /\ 1 <= MaxIdleConnections (Database c)
  /\ (Environment (App c) = "production" ->
      32 <= Z.of_nat (String.length (Secret (JWT c)))).

Lemma clean_added (v : Validator) (m : string) :
  clean {| errors := errors v ++ [m] |} = false.
Proof. unfold clean. simpl. destruct (errors v); reflexivity. Qed.

Lemma clean_Required (v : Validator) (key value : string) :
  clean (Required v key value) = clean v && negb (String.eqb value "").
Proof.
  unfold Required. destruct (String.eqb value ""); simpl.
  - rewrite clean_added, andb_false_r. reflexivity.
  - rewrite andb_true_r. reflexivity.
Qed.

Lemma clean_OneOf (v : Validator) (key value : string) (allowed : list string) :
  clean (OneOf v key value allowed) = clean v && existsb (String.eqb value) allowed.
Proof.
  unfold OneOf. destruct (existsb _ allowed); simpl.
  - rewrite andb_true_r. reflexivity.
  - rewrite clean_added, andb_false_r. reflexivity.
Qed.

Lemma clean_Range (v : Validator) (key : string) (value lo hi : Z) :
  clean (Range v key value lo hi)
  = clean v && negb ((value <? lo)%Z || (value >? hi)%Z).
Proof.
  unfold Range. destruct ((value <? lo)%Z || (value >? hi)%Z); simpl.
  - rewrite clean_added, andb_false_r. reflexivity.
  - rewrite andb_true_r. reflexivity.
Qed.

Lemma clean_Min (v : Validator) (key : string) (value lo : Z) :
  clean (Min v key value lo) = clean v && negb (value <? lo)%Z.
Proof.
  unfold Min. destruct (value <? lo)%Z; simpl.
  - rewrite clean_added, andb_false_r. reflexivity.
  - rewrite andb_true_r. reflexivity.
Qed.

Lemma clean_MinLength (v : Validator) (key value : string) (lo : Z) :
  clean (MinLength v key value lo)
  = clean v && negb (Z.of_nat (String.length value) <? lo)%Z.
Proof.
  unfold MinLength. destruct (Z.of_nat (String.length value) <? lo)%Z; simpl.
  - rewrite clean_added, andb_false_r. reflexivity.
  - rewrite andb_true_r. reflexivity.
Qed.

Lemma Validator_Error_nil (addr : N) (v : Validator) :
  Validator_Error addr v = None <-> clean v = true.
Proof.
  unfold Validator_Error, clean. destruct (errors v); split; congruence.
Qed.

Lemma one_of_spec (value : string) (allowed : list string) :
  existsb (String.eqb value) allowed = true <-> In value allowed.
Proof.
  rewrite existsb_exists. split.
  - intros (x & Hin & Heq). apply String.eqb_eq in Heq. subst. exact Hin.
  - intros Hin. exists value. split; [exact Hin | apply String.eqb_refl].
Qed.

Lemma in_range_spec (value lo hi : Z) :
  negb ((value <? lo)%Z || (value >? hi)%Z) = true <-> lo <= value <= hi.
Proof.
  rewrite negb_true_iff, orb_false_iff, Z.ltb_ge, Z.gtb_ltb, Z.ltb_ge. reflexivity.
Qed.

Lemma at_least_spec (value lo : Z) : negb (value <? lo)%Z = true <-> lo <= value.
Proof. rewrite negb_true_iff, Z.ltb_ge. reflexivity. Qed.

Lemma non_empty_spec (value : string) :
  negb (String.eqb value "") = true <-> value <> "".
Proof. rewrite negb_true_iff. apply String.eqb_neq. Qed.

(** X4. [Validate] returns nil exactly for the configurations with a
    known environment, ports between 1 and 65535, a known log level,
    non-empty host, database name, user and password, a known TLS mode, at
    least one connection and one idle connection, and, in production, a
    JWT secret of at least 32 bytes. *)
Theorem Validate_accepts_iff (addr : N) (c : Config) :
  Validate addr c = None <-> valid_config c.
Proof.
  unfold Validate. rewrite Validator_Error_nil.
  assert (Hjwt :
    forall v,
      clean (if String.eqb (Environment (App c)) "production"
             then MinLength (Required v "JWT_SECRET" (Secret (JWT c)))
                    "JWT_SECRET" (Secret (JWT c)) 32
             else v) = true
      <-> clean v = true /\
          (Environment (App c) = "production" ->
           32 <= Z.of_nat (String.length (Secret (JWT c))))).
  { intros v. destruct (String.eqb_spec (Environment (App c)) "production") as [Hp | Hp].
    - rewrite clean_MinLength, clean_Required, !andb_true_iff, at_least_spec,
        non_empty_spec.
      split.
      + intros [[Hv _] Hlen]. split; [exact Hv | intros _; exact Hlen].
      + intros [Hv Hlen]. specialize (Hlen Hp).
        split; [split; [exact Hv |] | exact Hlen].
        intros Hempty. rewrite Hempty in Hlen. simpl in Hlen. lia.
    - split; [intros Hv; split; [exact Hv | intros Hp'; contradiction] | tauto]. }
  rewrite Hjwt.
  repeat (rewrite clean_Min || rewrite clean_OneOf || rewrite clean_Required
          || rewrite clean_Range).
  change (clean NewValidator) with true.
  unfold valid_config.
  rewrite !andb_true_iff, !one_of_spec, !in_range_spec, !at_least_spec, !non_empty_spec.
  assert (Hknown : In (Environment (App c)) ["development"; "staging"; "production"] ->
                   Environment (App c) <> "").
  { intros Henv Hempty. rewrite Hempty in Henv. simpl in Henv.
    repeat (destruct Henv as [Henv | Henv]; [discriminate |]). contradiction. }
  tauto.
Qed.

Lemma append_assoc (a b c : string) : (a +:+ b) +:+ c = a +:+ b +:+ c.
Proof.
  induction a as [| x a IH]; [reflexivity |].
  change (String x ((a +:+ b) +:+ c) = String x (a +:+ b +:+ c)). f_equal. exact IH.
Qed.

Lemma length_append (a b : string) :
  String.length (a +:+ b) = (String.length a + String.length b)%nat.
Proof.
  induction a as [| x a IH]; [reflexivity |].
  change (S (String.length (a +:+ b)) = S (String.length a + String.length b)).
  f_equal. exact IH.
Qed.

(** A comma somewhere in the string. *)
Fixpoint has_comma (s : string) : bool :=
  match s with
  | EmptyString => false
  | String c rest => Ascii.eqb c ","%char || has_comma rest
  end.

Lemma has_comma_append (a b : string) :
  has_comma (a +:+ b) = has_comma a || has_comma b.
Proof.
  induction a as [| x a IH]; [reflexivity |].
  change (Ascii.eqb x ","%char || has_comma (a +:+ b)
          = Ascii.eqb x ","%char || has_comma a || has_comma b).
  rewrite IH, orb_assoc. reflexivity.
Qed.

Lemma split_comma_not_nil (cur s : string) : split_comma cur s <> [].
Proof.
  revert cur. induction s as [| c rest IH]; intros cur; simpl; [discriminate |].
  destruct (Ascii.eqb c ","%char); [discriminate | apply IH].
Qed.

(** Joining the fields with commas gives the string back. *)
Lemma Join_split_comma (cur s : string) : Join (split_comma cur s) "," = cur +:+ s.
Proof.
  revert cur. induction s as [| c rest IH]; intros cur; simpl.
  - symmetry. apply ErrorsSpec.append_empty_r.
  - destruct (Ascii.eqb_spec c ","%char) as [-> | Hc].
    + pose proof (split_comma_not_nil "" rest) as Hne.
      specialize (IH ""). destruct (split_comma "" rest) as [| f fs]; [contradiction |].
      change (cur +:+ "," +:+ Join (f :: fs) "," = cur +:+ String ","%char rest).
      rewrite IH. reflexivity.
    + rewrite IH, append_assoc. reflexivity.
Qed.

Lemma split_comma_fields (cur s : string) :
  has_comma cur = false ->
  Forall (fun field => has_comma field = false) (split_comma cur s).
Proof.
  revert cur. induction s as [| c rest IH]; intros cur Hcur; simpl.
  - constructor; [exact Hcur | constructor].
  - destruct (Ascii.eqb c ","%char) eqn:Hc.
    + constructor; [exact Hcur | apply IH; reflexivity].
    + apply IH. rewrite has_comma_append, Hcur. simpl. rewrite Hc. reflexivity.
Qed.

Section Loading.
Variable Atoi : string -> Z + error.
Variable ParseDuration : string -> Z + error.
Variable TrimSpace : string -> string.
Variable addr : N.


(** X6. A port that parses but lies outside 1..65535 is not replaced by
    the default: [Load] fails.  The same holds for a connection limit that
    parses to less than 1.  (A value that does not parse at all is
    replaced by the default instead.) *)
Theorem Load_rejects_out_of_range (env : gmap string string) (key : string) (n : Z) :
  Getenv env key <> "" ->
  Atoi (Getenv env key) = inl n ->
  (In key ["APP_PORT"; "DB_PORT"] /\ ~ 1 <= n <= 65535)
  \/ (In key ["DB_MAX_CONNECTIONS"; "DB_MAX_IDLE_CONNECTIONS"] /\ n < 1) ->
  exists e : error, Load Atoi ParseDuration TrimSpace addr env = inr e.
Proof.
  intros Hset Hparse Hbad.
  destruct (Load Atoi ParseDuration TrimSpace addr env) as [cfg | e] eqn:Hload; [| eauto].
  exfalso.
  assert (Hread : forall d, getEnvAsInt Atoi env key d = n).
  { intros d. unfold getEnvAsInt. rewrite Hparse.
    destruct (String.eqb_spec (Getenv env key) ""); [contradiction | reflexivity]. }
  unfold Load in Hload.
  destruct (Validate addr _) as [err|] eqn:Hvalid; [discriminate |].
  apply Validate_accepts_iff in Hvalid.
  destruct Hvalid as (_ & Hport & _ & _ & Hdbport & _ & _ & _ & _ & Hmax & Hidle & _).
  simpl in Hport, Hdbport, Hmax, Hidle.
  destruct Hbad as [[Hkey Hrange] | [Hkey Hlow]]; simpl in Hkey.
  - destruct Hkey as [<- | [<- | []]]; rewrite Hread in *; contradiction.
  - destruct Hkey as [<- | [<- | []]]; rewrite Hread in *; lia.
Qed.

(** X7. [getEnvAsSlice] returns the default exactly when the variable is
    unset or empty.  Otherwise it returns the trimmed fields of the value:
    at least one field, none of them containing a comma before trimming,
    and joined by commas they give the value back, so empty fields are
    kept. *)
Theorem getEnvAsSlice_fields (env : gmap string string) (key : string)
    (defaultValue : list string) :
  (Getenv env key = "" -> getEnvAsSlice TrimSpace env key defaultValue = defaultValue)
  /\ (Getenv env key <> "" ->
      exists fields : list string,
        getEnvAsSlice TrimSpace env key defaultValue = map TrimSpace fields /\
        fields <> [] /\
        Join fields "," = Getenv env key /\
        Forall (fun field => has_comma field = false) fields).
Proof.
  unfold getEnvAsSlice. split.
  - intros ->. reflexivity.
  - intros Hset. destruct (String.eqb_spec (Getenv env key) ""); [contradiction |].
    exists (split_comma "" (Getenv env key)).
    split; [reflexivity |]. split; [apply split_comma_not_nil |].
    split; [apply Join_split_comma | apply split_comma_fields; reflexivity].
Qed.

End Loading.

(** With the user and the password swapped around a separator. *)
Definition with_credentials (c : DatabaseConfig) (user password : string) : DatabaseConfig :=
  {| Host := Host c; DB_Port := DB_Port c; Name := Name c; User := user;
     Password := password; SSLMode := SSLMode c; MaxConnections := MaxConnections c;
     MaxIdleConnections := MaxIdleConnections c;
     ConnectionLifetime := ConnectionLifetime c |}.

(** X8. [GetDatabaseURL] writes the values as they are, without quoting:
    a user name that ends in " password=x" followed by the password y
    gives the same connection string as the user name without that ending
    followed by the password "x password=y", although the two
    configurations differ. *)
Theorem GetDatabaseURL_not_quoted (c : DatabaseConfig) (u x y : string) :
  GetDatabaseURL (with_credentials c (u +:+ " password=" +:+ x) y)
  = GetDatabaseURL (with_credentials c u (x +:+ " password=" +:+ y))
  /\ with_credentials c (u +:+ " password=" +:+ x) y
     <> with_credentials c u (x +:+ " password=" +:+ y).
Proof.
  split.
  - unfold GetDatabaseURL, with_credentials. simpl.
    do 4 f_equal. rewrite !append_assoc. reflexivity.
  - intros Heq. apply (f_equal User) in Heq. simpl in Heq.
    apply (f_equal String.length) in Heq. rewrite length_append in Heq.
    rewrite length_append in Heq. simpl in Heq. lia.
Qed.

(** *** Concrete environments *)

Definition only_password : gmap string string := {[ "DB_PASSWORD" := "secret" ]}.

Example defaults_load :
  exists cfg : Config,
    Load Scenario.Atoi Scenario.ParseSeconds (fun s => s) 0%N only_password = inl cfg
    /\ App_Port (App cfg) = 8080
    /\ ShutdownTimeout (Server cfg) = 30 * Second
    /\ AllowedOrigins (CORS cfg) = ["*"].
Proof. eexists. split; [reflexivity |]. repeat split. Qed.

Example empty_environment_message :
  exists e : error,
    Load Scenario.Atoi Scenario.ParseSeconds (fun s => s) 0%N ∅ = inr e
    /\ Error e = "invalid configuration: configuration validation failed:" +:+ newline
                 +:+ "  - DB_PASSWORD is required".
Proof. eexists. split; reflexivity. Qed.


Lemma Load_rejects_out_of_range_witness :
  exists e : error,
    Load Scenario.Atoi Scenario.ParseSeconds (fun s => s) 0%N
      (<["APP_PORT" := "70000"]> only_password) = inr e.
Proof.
  apply (Load_rejects_out_of_range Scenario.Atoi Scenario.ParseSeconds (fun s => s) 0%N
           (<["APP_PORT" := "70000"]> only_password) "APP_PORT" 70000).
  - discriminate.
  - reflexivity.
  - left. split; [left; reflexivity | lia].
Defined.

Lemma getEnvAsSlice_fields_witness :
  exists fields : list string,
    getEnvAsSlice (fun s => s) {[ "CORS_ALLOWED_ORIGINS" := "a.example,,b.example" ]}
      "CORS_ALLOWED_ORIGINS" ["*"] = map (fun s => s) fields
    /\ fields <> []
    /\ Join fields "," = "a.example,,b.example".
Proof.
  destruct (proj2 (getEnvAsSlice_fields (fun s => s)
                     {[ "CORS_ALLOWED_ORIGINS" := "a.example,,b.example" ]}
                     "CORS_ALLOWED_ORIGINS" ["*"]))
    as (fields & Hread & Hne & Hjoin & _).
  - discriminate.
  - exists fields. split; [exact Hread |]. split; [exact Hne | exact Hjoin].
Defined.

End ConfigLaws.

(** ** Transactions, contexts and pools *)

Module DatabaseLaws.
Import Errors Go Config Database.

(** [finishes c e]: the call [e] is the commit or the rollback of the
    transaction the context [c] carries. *)
Definition finishes (c : Context) (e : Event) : bool :=
  match GetTx c, e with
  | Returns (Some tx), Commit_ tx' => N.eqb tx tx'
  | Returns (Some tx), Rollback_ tx' => N.eqb tx tx'
  | _, _ => false
  end.

(** Every unit of work that was invoked is followed, later in the trace,
    by the commit or the rollback of the transaction it was handed. *)
Fixpoint settled (t : list Event) : bool :=
  match t with
  | [] => true
  | Call_ c :: rest => existsb (finishes c) rest && settled rest
  | _ :: rest => settled rest
  end.

(** Pools stay where they are, keep their configuration, and stay closed
    once closed. *)
Definition kept (m m' : gmap positive PoolObj) : Prop :=
  forall (i : positive) (o : PoolObj),
    m !! i = Some o ->
    exists o' : PoolObj,
      m' !! i = Some o' /\
      pool_config o' = pool_config o /\
      (pool_closed o = true -> pool_closed o' = true).




Lemma settled_app (t u : list Event) :
  settled t = true -> settled u = true -> settled (t ++ u) = true.
Proof.
  intros Ht Hu. induction t as [| e t IH]; [exact Hu |].
  destruct e; simpl in *; auto.
  apply andb_true_iff in Ht as [Hfin Ht].
  rewrite existsb_app, Hfin. simpl. auto.
Qed.

Lemma settled_tail (t u : list Event) : settled (t ++ u) = true -> settled u = true.
Proof.
  induction t as [| e t IH]; [auto |].
  destruct e; simpl; auto.
  intros [_ Ht]%andb_true_iff. auto.
Qed.

Lemma finishes_own (c : Context) (tx : Tx) :
  finishes (WithValue c txKey (Some (Tx_ tx))) (Commit_ tx) = true
  /\ finishes (WithValue c txKey (Some (Tx_ tx))) (Rollback_ tx) = true.
Proof.
  unfold finishes, GetTx. simpl.
  destruct (decide (txKey = txKey)) as [_ | Hne]; [| contradiction].
  simpl. rewrite N.eqb_refl. split; reflexivity.
Qed.

Section Laws.
Context {DB : Type} {pgx : Pgx DB}.

(** What one call of [WithTransaction] does to the world: the pools stay,
    calls are added to the trace, and among the added calls the unit of
    work has its commit or rollback unless the goroutine is exiting. *)
Lemma WithTransaction_effect (tm : PostgresTransactionManager) (ctx : Context)
    (fn : UnitOfWork (DB := DB)) (w : World DB) :
  pools (snd (WithTransaction tm ctx fn w)) = pools w
  /\ exists evs : list Event,
      trace (snd (WithTransaction tm ctx fn w)) = trace w ++ evs /\
      (settled evs = true <-> fst (WithTransaction tm ctx fn w) <> Exits).
Proof.
  destruct tm as [[p |]].
  2:{ split; [reflexivity |]. exists []. split; [symmetry; apply app_nil_r |].
      split; [discriminate | reflexivity]. }
  change {| pool := Some p |} with (NewPostgresTransactionManager (Some p)).
  destruct (pgx_Begin ctx p (db w)) as [[tx | err] d1] eqn:Hbegin.
  - rewrite (TransactionSpec.WithTransaction_run p ctx fn w tx d1 Hbegin).
    destruct (finishes_own ctx tx) as [Hcommit Hrollback].
    destruct (fn _ d1) as [[[res [e|]] | q |] d2]; simpl;
      (split; [reflexivity |]); eexists; (split; [reflexivity |]);
      cbn [settled existsb]; rewrite ?Hcommit, ?Hrollback;
      (split; [discriminate || (intros _; discriminate) | reflexivity || contradiction]).
  - rewrite (TransactionSpec.WithTransaction_begin_error p ctx fn w err d1 Hbegin).
    simpl. split; [reflexivity |]. eexists. split; [reflexivity |].
    split; [discriminate | reflexivity].
Qed.

(** X9. [WithTransaction] returns a result with a nil error exactly when
    begin succeeded, the unit of work returned that result with a nil
    error, and the commit succeeded; success is never reported for work
    that was not committed. *)
Theorem WithTransaction_success_iff (p : Pool) (ctx : Context)
    (fn : UnitOfWork (DB := DB)) (w : World DB) (res : any) :
  fst (WithTransaction (NewPostgresTransactionManager (Some p)) ctx fn w)
    = Returns (res, None)
  <-> exists (tx : Tx) (d1 d2 : DB),
        pgx_Begin ctx p (db w) = (inl tx, d1) /\
        fn (WithValue ctx txKey (Some (Tx_ tx))) d1 = (Returns (res, None), d2) /\
        fst (pgx_Commit ctx tx d2) = None.
Proof.
  split.
  - destruct (pgx_Begin ctx p (db w)) as [[tx | err] d1] eqn:Hbegin.
    + rewrite (TransactionSpec.WithTransaction_run p ctx fn w tx d1 Hbegin).
      destruct (fn _ d1) as [[[res' [e|]] | q |] d2] eqn:Hfn; simpl;
        try discriminate.
      destruct (fst (pgx_Commit ctx tx d2)) eqn:Hcommit; [discriminate |].
      intros [= <-]. exists tx, d1, d2. auto.
    + rewrite (TransactionSpec.WithTransaction_begin_error p ctx fn w err d1 Hbegin).
      discriminate.
  - intros (tx & d1 & d2 & Hbegin & Hfn & Hcommit).
    rewrite (TransactionSpec.WithTransaction_run p ctx fn w tx d1 Hbegin), Hfn.
    simpl. rewrite Hcommit. reflexivity.
Qed.

(** X10. [WithTransaction] never opens, closes or changes a pool, however
    it ends.  On a manager without a pool it panics at once: nothing is
    called, not even the unit of work, and the world is as before. *)
Theorem WithTransaction_leaves_pools (tm : PostgresTransactionManager) (ctx : Context)
    (fn : UnitOfWork (DB := DB)) (w : World DB) :
  pools (snd (WithTransaction tm ctx fn w)) = pools w
  /\ (pool tm = None -> WithTransaction tm ctx fn w = (Panics nil_dereference, w)).
Proof.
  split; [apply WithTransaction_effect |].
  destruct tm as [[p |]]; [discriminate | reflexivity].
Qed.

Lemma HealthCheck_run (ctx : Context) (p : Pool) (w : World DB) :
  HealthCheck ctx (Some p) w =
    (Returns match fst (pgx_Ping (WithTimeout ctx (5 * Second)) p (db w)) with
             | Some perr => Some (Errorf "database health check failed: " perr "")
             | None => None
             end,
     {| db := snd (pgx_Ping (WithTimeout ctx (5 * Second)) p (db w));
        pools := pools w;
        trace := trace w ++ [Ping_ p] |}).
Proof.
  TransactionSpec.run.
  destruct (pgx_Ping (WithTimeout ctx (5 * Second)) p (db w)) as [[perr|] d1];
    reflexivity.
Qed.

(** X11. [HealthCheck] on a pool makes one call, a ping of that pool
    under a context derived from the caller's with a timeout of five
    seconds; it changes no pool; it returns nil exactly when the ping
    did, and otherwise an error that wraps the ping's error under
    "database health check failed: ". *)
Theorem HealthCheck_pings_once (ctx : Context) (p : Pool) (w : World DB) :
  trace (snd (HealthCheck ctx (Some p) w)) = trace w ++ [Ping_ p]
  /\ pools (snd (HealthCheck ctx (Some p) w)) = pools w
  /\ fst (HealthCheck ctx (Some p) w)
     = Returns match fst (pgx_Ping (WithTimeout ctx (5 * Second)) p (db w)) with
               | Some perr => Some (Errorf "database health check failed: " perr "")
               | None => None
               end
  /\ (fst (HealthCheck ctx (Some p) w) = Returns None
      <-> fst (pgx_Ping (WithTimeout ctx (5 * Second)) p (db w)) = None).
Proof.
  rewrite HealthCheck_run. simpl.
  split; [reflexivity |]. split; [reflexivity |]. split; [reflexivity |].
  destruct (fst (pgx_Ping (WithTimeout ctx (5 * Second)) p (db w)));
    split; (reflexivity || discriminate).
Qed.


(** X13. Every operation of the package keeps the trace settled, unless
    a unit of work ends the goroutine.  If each unit of work invoked so far
    has been followed by the commit or the rollback of the transaction it
    was handed, the same holds after [NewPostgresPool], [Close] and
    [HealthCheck], and it holds after [WithTransaction] exactly when that
    has returned or panicked: when the unit of work has called
    [runtime.Goexit], it is the last call of the trace, with no commit or
    rollback behind it. *)
Theorem operations_keep_settled (ctx : Context) (cfg : DatabaseConfig)
    (tm : PostgresTransactionManager) (fn : UnitOfWork (DB := DB))
    (pool : option Pool) (w : World DB) :
  settled (trace w) = true ->
  (settled (trace (snd (WithTransaction tm ctx fn w))) = true
   <-> fst (WithTransaction tm ctx fn w) <> Exits)
  /\ (fst (WithTransaction tm ctx fn w) = Exits ->
      exists (t : list Event) (c : Context),
        trace (snd (WithTransaction tm ctx fn w)) = t ++ [Call_ c])
  /\ settled (trace (snd (NewPostgresPool ctx cfg w))) = true
  /\ settled (trace (snd (Close pool w))) = true
  /\ settled (trace (snd (HealthCheck ctx pool w))) = true.
Proof.
  intros Hw. split; [| split; [| split; [| split]]].
  - destruct (WithTransaction_effect tm ctx fn w) as (_ & evs & -> & Hevs).
    rewrite <- Hevs. split.
    + apply settled_tail.
    + apply settled_app. exact Hw.
  - destruct tm as [[p |]]; [| discriminate].
    change {| Database.pool := Some p |} with (NewPostgresTransactionManager (Some p)).
    destruct (pgx_Begin ctx p (db w)) as [[tx | err] d1] eqn:Hbegin.
    + rewrite (TransactionSpec.WithTransaction_run p ctx fn w tx d1 Hbegin).
      destruct (fn _ d1) as [[[res [e|]] | q |] d2]; simpl; try discriminate.
      intros _. exists (trace w ++ [Begin_ p]). eexists.
      rewrite <- app_assoc. reflexivity.
    + rewrite (TransactionSpec.WithTransaction_begin_error p ctx fn w err d1 Hbegin).
      discriminate.
  - rewrite PoolSpec.NewPostgresPool_run.
    destruct (pgx_ParseConfig _) as [pc | perr]; [| apply settled_app; [exact Hw | reflexivity]].
    destruct (pgx_connect _ _ _) as [[cerr|] d1];
      [apply settled_app; [exact Hw | reflexivity] |].
    destruct (pgx_Ping _ _ d1) as [[perr|] d2];
      apply settled_app; (exact Hw || reflexivity).
  - destruct pool as [q|]; [| exact Hw].
    apply settled_app; [exact Hw | reflexivity].
  - destruct pool as [q|]; [| exact Hw].
    rewrite HealthCheck_run. apply settled_app; [exact Hw | reflexivity].
Qed.

End Laws.

Lemma int32_in_range (n : Z) : - 2 ^ 31 <= n < 2 ^ 31 -> int32 n = n.
Proof. intros Hn. unfold int32. rewrite Z.mod_small by lia. lia. Qed.

Lemma int32_above (n : Z) : 2 ^ 31 <= n < 2 ^ 32 -> int32 n = n - 2 ^ 32.
Proof.
  intros Hn. unfold int32.
  replace (n + 2 ^ 31) with ((n - 2 ^ 31) + 1 * 2 ^ 32) by lia.
  rewrite Z.mod_add by lia. rewrite Z.mod_small by lia. lia.
Qed.

(** X14. Once the connection string is parsed, [NewPostgresPool] hands
    [pgxpool.NewWithConfig] the parsed configuration with five settings
    replaced: the connection lifetime as configured, an idle time of thirty
    minutes, a health check every minute, and as limits the 32-bit
    conversions of the configured maximum and idle counts.  A count inside
    the 32-bit range is kept; a maximum from 2^31 up to 2^32 - 1, which
    [Validate] accepts, is handed over as a negative limit.  A pool that is
    returned is open and has that configuration. *)
Theorem NewPostgresPool_pool_config {DB : Type} {pgx : Pgx DB}
    (ctx : Context) (cfg : DatabaseConfig) (w : World DB) (pc : PoolConfig) :
  pgx_ParseConfig (GetDatabaseURL cfg) = inl pc ->
  exists (c : PoolConfig) (rest : list Event),
    trace (snd (NewPostgresPool ctx cfg w))
      = trace w ++ [ParseConfig_ (GetDatabaseURL cfg); NewWithConfig_ c] ++ rest /\
    ConnString c = ConnString pc /\
    MaxConns c = int32 (MaxConnections cfg) /\
    MinConns c = int32 (MaxIdleConnections cfg) /\
    MaxConnLifetime c = ConnectionLifetime cfg /\
    MaxConnIdleTime c = 30 * Minute /\
    HealthCheckPeriod c = 1 * Minute /\
    (- 2 ^ 31 <= MaxConnections cfg < 2 ^ 31 -> MaxConns c = MaxConnections cfg) /\
    (2 ^ 31 <= MaxConnections cfg < 2 ^ 32 -> MaxConns c < 0) /\
    (forall (q : Pool) (err : option error),
        fst (NewPostgresPool ctx cfg w) = Returns (Some q, err) ->
        pools (snd (NewPostgresPool ctx cfg w)) !! q
        = Some {| pool_config := c; pool_closed := false |}).
Proof.
  intros Hparse. rewrite PoolSpec.NewPostgresPool_run, Hparse.
  exists (PoolSpec.tuned cfg pc).
  assert (Hfields :
    forall P : Prop, P ->
      ConnString (PoolSpec.tuned cfg pc) = ConnString pc /\
      MaxConns (PoolSpec.tuned cfg pc) = int32 (MaxConnections cfg) /\
      MinConns (PoolSpec.tuned cfg pc) = int32 (MaxIdleConnections cfg) /\
      MaxConnLifetime (PoolSpec.tuned cfg pc) = ConnectionLifetime cfg /\
      MaxConnIdleTime (PoolSpec.tuned cfg pc) = 30 * Minute /\
      HealthCheckPeriod (PoolSpec.tuned cfg pc) = 1 * Minute /\
      (- 2 ^ 31 <= MaxConnections cfg < 2 ^ 31 ->
       MaxConns (PoolSpec.tuned cfg pc) = MaxConnections cfg) /\
      (2 ^ 31 <= MaxConnections cfg < 2 ^ 32 -> MaxConns (PoolSpec.tuned cfg pc) < 0) /\
      P).
  { intros P HP. repeat (split; [reflexivity |]). simpl. split; [apply int32_in_range |].
    split; [| exact HP]. intros Hbig. rewrite (int32_above _ Hbig). lia. }
  destruct (pgx_connect _ _ _) as [[cerr|] d1].
  { exists []. simpl. split; [reflexivity |]. apply Hfields. discriminate. }
  destruct (pgx_Ping _ _ d1) as [[perr|] d2].
  { eexists [_; _]. simpl. split; [reflexivity |]. apply Hfields. discriminate. }
  eexists [_]. simpl. split; [reflexivity |]. apply Hfields.
  intros q err [= <- <-]. apply lookup_insert_eq.
Qed.

(** X15. What [GetTx] finds does not change when the context is wrapped
    with a value under another key, in particular under the plain string
    "tx", or with a timeout.  A transaction stored under the tx key hides
    whatever was stored under it before, and a nil stored under it hides
    the transaction of the enclosing context. *)
Theorem GetTx_frame (c : Context) :
  (forall (k : dyn) (v : any), k <> txKey -> GetTx (WithValue c k v) = GetTx c)
  /\ (forall v : any, GetTx (WithValue c (String_ "tx") v) = GetTx c)
  /\ (forall t : Z, GetTx (WithTimeout c t) = GetTx c)
  /\ (forall (v : any) (tx : Tx),
      GetTx (WithValue (WithValue c txKey v) txKey (Some (Tx_ tx))) = Returns (Some tx))
  /\ GetTx (WithValue c txKey None) = Returns None.
Proof.
  assert (Hother : forall (k : dyn) (v : any),
             k <> txKey -> GetTx (WithValue c k v) = GetTx c).
  { intros k v Hk. unfold GetTx. simpl.
    destruct (decide (k = txKey)) as [Heq | _]; [contradiction | reflexivity]. }
  split; [exact Hother |].
  split; [intros v; apply Hother; discriminate |].
  split; [reflexivity |].
  split; intros; unfold GetTx; simpl;
    destruct (decide (txKey = txKey)) as [_ | Hne]; try reflexivity; contradiction.
Qed.

(** *** Concrete runs against the scripted database *)

Lemma WithTransaction_leaves_pools_witness :
  WithTransaction (pgx := Scenario.scripted true) (NewPostgresTransactionManager None)
    Background Scenario.work_ok (Scenario.one_pool Scenario.all_well)
  = (Panics nil_dereference, Scenario.one_pool Scenario.all_well).
Proof.
  exact (proj2 (WithTransaction_leaves_pools (pgx := Scenario.scripted true)
                  (NewPostgresTransactionManager None) Background Scenario.work_ok
                  (Scenario.one_pool Scenario.all_well)) eq_refl).
Defined.

Example commit_before_work_is_not_settled :
  settled [Commit_ 7%N; Call_ (WithValue Background txKey (Some (Tx_ 7%N)))] = false.
Proof. reflexivity. Qed.

Example other_transaction_does_not_settle :
  settled [Call_ (WithValue Background txKey (Some (Tx_ 7%N))); Commit_ 8%N] = false.
Proof. reflexivity. Qed.

Lemma operations_keep_settled_witness :
  settled (Database.trace
             (snd (WithTransaction (pgx := Scenario.scripted true)
                     (NewPostgresTransactionManager (Some 1%positive)) Background
                     Scenario.work_panics (Scenario.one_pool Scenario.rollback_fails))))
  = true
  /\ settled (Database.trace
                (snd (WithTransaction (pgx := Scenario.scripted true)
                        (NewPostgresTransactionManager (Some 1%positive)) Background
                        Scenario.work_exits (Scenario.one_pool Scenario.all_well))))
     <> true.
Proof.
  split.
  - apply (proj1 (operations_keep_settled (pgx := Scenario.scripted true)
                    Background Scenario.local_db
                    (NewPostgresTransactionManager (Some 1%positive))
                    Scenario.work_panics None
                    (Scenario.one_pool Scenario.rollback_fails) eq_refl)).
    discriminate.
  - intros Hsettled.
    apply (proj1 (proj1 (operations_keep_settled (pgx := Scenario.scripted true)
                           Background Scenario.local_db
                           (NewPostgresTransactionManager (Some 1%positive))
                           Scenario.work_exits None
                           (Scenario.one_pool Scenario.all_well) eq_refl)) Hsettled).
    reflexivity.
Defined.

Lemma NewPostgresPool_pool_config_witness :
  exists (c : PoolConfig) (rest : list Event),
    Database.trace (snd (NewPostgresPool (pgx := Scenario.scripted true) Background
                           Scenario.local_db (Scenario.start Scenario.all_well)))
    = [ParseConfig_ (GetDatabaseURL Scenario.local_db); NewWithConfig_ c] ++ rest
    /\ MaxConns c = 25 /\ MinConns c = 5.
Proof.
  destruct (NewPostgresPool_pool_config (pgx := Scenario.scripted true) Background
              Scenario.local_db (Scenario.start Scenario.all_well)
              (Scenario.parsed_defaults (GetDatabaseURL Scenario.local_db)) eq_refl)
    as (c & rest & Htrace & _ & Hmax & Hmin & _).
  exists c, rest. split; [exact Htrace |]. split; [exact Hmax | exact Hmin].
Defined.

End DatabaseLaws.

(** ** The server: results and log lines *)

Module ServerLaws.
Import Errors Go Config Server.

Definition line (level msg : string) (fields : list Field) : LogLine :=
  {| log_level := level; log_msg := msg; log_fields := fields |}.

Definition is_error_line (l : LogLine) : bool := String.eqb (log_level l) "error".

(** The line of the serve goroutine, and the lines of [Start]'s own path:
    all the others. *)
Definition is_starting_line (l : LogLine) : bool :=
  String.eqb (log_msg l) "starting HTTP server".

Definition own_lines (lines : list LogLine) : list LogLine :=
  List.filter (fun l => negb (is_starting_line l)) lines.

Section Laws.
Context {NET : Type} {http : Http NET} {Hd : Type}.

Variables (s : Server Hd) (port : Z) (w : World NET).

Let addr : string := ":" +:+ pretty port.
Let drainCtx : Context := WithTimeout Background (ShutdownTimeout (config s)).

(** Every run of [Start], with its log lines. *)
Lemma Start_effect :
  Start s port w =
    match http_select addr (net w) with
    | (serverErrors err, n1) =>
        (Returns (Some (Errorf "server error: " err "")),
         {| net := n1;
            logged := logged w ++ [line "info" "starting HTTP server" [FInt "port" port]];
            trace := trace w ++ [ListenAndServe_ addr; Notify_ [Interrupt; SIGTERM]] |})
    | (shutdown sig, n1) =>
        match http_Shutdown drainCtx n1 with
        | (None, n2) =>
            (Returns None,
             {| net := n2;
                logged := logged w ++
                  [line "info" "starting HTTP server" [FInt "port" port];
                   line "info" "shutdown signal received"
                     [FString "signal" (Signal_String sig)];
                   line "info" "server stopped gracefully" []];
                trace := trace w ++ [ListenAndServe_ addr; Notify_ [Interrupt; SIGTERM];
                                     Shutdown_ drainCtx] |})
        | (Some err, n2) =>
            (Returns (Some match fst (http_Close n2) with
                           | Some closeErr => Errorf "force close error: " closeErr ""
                           | None => Errorf "graceful shutdown error: " err ""
                           end),
             {| net := snd (http_Close n2);
                logged := logged w ++
                  [line "info" "starting HTTP server" [FInt "port" port];
                   line "info" "shutdown signal received"
                     [FString "signal" (Signal_String sig)];
                   line "error" "graceful shutdown failed" [FError (Some err)]];
                trace := trace w ++ [ListenAndServe_ addr; Notify_ [Interrupt; SIGTERM];
                                     Shutdown_ drainCtx; Close_] |})
        end
    end.
Proof.
  subst addr drainCtx. ServerSpec.run.
  destruct (http_select _ (net w)) as [[err | sig] n1]; simpl.
  - rewrite <- !app_assoc. reflexivity.
  - destruct (http_Shutdown _ n1) as [[err|] n2]; simpl.
    + destruct (http_Close n2) as [[closeErr|] n3]; simpl;
        rewrite <- !app_assoc; reflexivity.
    + rewrite <- !app_assoc. reflexivity.
Qed.

(** X16. [Start] returns nil exactly when the [select] received a signal
    and the drain under the configured timeout succeeded: an error of the
    serve goroutine and a failed drain both give an error.  [Close] is
    among its calls exactly when a signal was received and the drain
    failed. *)
Theorem Start_nil_iff :
  (fst (Start s port w) = Returns None
   <-> exists (sig : Signal) (n1 n2 : NET),
         http_select addr (net w) = (shutdown sig, n1) /\
         http_Shutdown drainCtx n1 = (None, n2))
  /\ exists calls : list Event,
      trace (snd (Start s port w)) = trace w ++ calls /\
      (In Close_ calls
       <-> exists (sig : Signal) (n1 n2 : NET) (err : error),
             http_select addr (net w) = (shutdown sig, n1) /\
             http_Shutdown drainCtx n1 = (Some err, n2)).
Proof.
  rewrite Start_effect.
  destruct (http_select addr (net w)) as [[err | sig] n1].
  - split.
    + split; [discriminate | intros (? & ? & ? & [=] & _)].
    + eexists. split; [reflexivity |]. split.
      * simpl. intros [[=] | [[=] | []]].
      * intros (? & ? & ? & ? & [=] & _).
  - destruct (http_Shutdown drainCtx n1) as [[err|] n2] eqn:Hdrain.
    + split.
      * split; [discriminate |].
        intros (sig' & n1' & n2' & [= <- <-] & Hn). rewrite Hdrain in Hn. discriminate.
      * eexists. split; [reflexivity |]. split.
        -- intros _. exists sig, n1, n2, err. auto.
        -- intros _. simpl. tauto.
    + split.
      * split; [| reflexivity]. intros _. exists sig, n1, n2. auto.
      * eexists. split; [reflexivity |]. split.
        -- simpl. intros [[=] | [[=] | [[=] | []]]].
        -- intros (sig' & n1' & n2' & err & [= <- <-] & Hn).
           rewrite Hdrain in Hn. discriminate.
Qed.

(** X17. The lines of [Start]'s own path, whatever the place of the serve
    goroutine's line among them.  After a signal they are "shutdown signal
    received" with the name of the signal and then, if the drain failed,
    "graceful shutdown failed" at level error with the error of the drain,
    else "server stopped gracefully".  A line at level error is logged
    exactly when a signal was received and the drain failed.  An error of
    the serve goroutine is returned but not logged: the only line is then
    the goroutine's "starting HTTP server" with the port, which the
    goroutine logs before it sends the error. *)
Theorem Start_log_lines :
  exists lines : list LogLine,
    logged (snd (Start s port w)) = logged w ++ lines
    /\ (forall l : LogLine,
          In l lines -> is_starting_line l = true ->
          l = line "info" "starting HTTP server" [FInt "port" port])
    /\ (existsb is_error_line lines = true
        <-> exists (sig : Signal) (n1 n2 : NET) (err : error),
              http_select addr (net w) = (shutdown sig, n1) /\
              http_Shutdown drainCtx n1 = (Some err, n2))
    /\ (forall (sig : Signal) (n1 n2 : NET) (err : error),
          http_select addr (net w) = (shutdown sig, n1) ->
          http_Shutdown drainCtx n1 = (Some err, n2) ->
          own_lines lines
          = [line "info" "shutdown signal received" [FString "signal" (Signal_String sig)];
             line "error" "graceful shutdown failed" [FError (Some err)]])
    /\ (forall (sig : Signal) (n1 n2 : NET),
          http_select addr (net w) = (shutdown sig, n1) ->
          http_Shutdown drainCtx n1 = (None, n2) ->
          own_lines lines
          = [line "info" "shutdown signal received" [FString "signal" (Signal_String sig)];
             line "info" "server stopped gracefully" []])
    /\ (forall (err : error) (n1 : NET),
          http_select addr (net w) = (serverErrors err, n1) ->
          lines = [line "info" "starting HTTP server" [FInt "port" port]]).
Proof.
  rewrite Start_effect.
  destruct (http_select addr (net w)) as [[err | sig] n1].
  - eexists. split; [reflexivity |]. split; [| split; [| split; [| split]]].
    + intros l [<- | []] _. reflexivity.
    + split; [discriminate | intros (? & ? & ? & ? & [=] & _)].
    + intros ? ? ? ? [=].
    + intros ? ? ? [=].
    + reflexivity.
  - destruct (http_Shutdown drainCtx n1) as [[err|] n2] eqn:Hdrain.
    + eexists. split; [reflexivity |]. split; [| split; [| split; [| split]]].
      * intros l [<- | [<- | [<- | []]]]; [reflexivity | discriminate ..].
      * split; [| reflexivity]. intros _. exists sig, n1, n2, err. auto.
      * intros sig' n1' n2' err' [= <- <-]. rewrite Hdrain. intros [= <- <-].
        reflexivity.
      * intros sig' n1' n2' [= <- <-]. rewrite Hdrain. discriminate.
      * intros ? ? [=].
    + eexists. split; [reflexivity |]. split; [| split; [| split; [| split]]].
      * intros l [<- | [<- | [<- | []]]]; [reflexivity | discriminate ..].
      * split; [discriminate |].
        intros (sig' & n1' & n2' & err & [= <- <-] & Hn).
        rewrite Hdrain in Hn. discriminate.
      * intros sig' n1' n2' err' [= <- <-]. rewrite Hdrain. discriminate.
      * intros sig' n1' n2' [= <- <-]. rewrite Hdrain. intros _. reflexivity.
      * intros ? ? [=].
Qed.

End Laws.

(** *** Concrete runs against the timed server *)

Lemma Start_log_lines_witness :
  exists lines : list LogLine,
    logged (snd (Start (http := Scenario.timed) (NewServer tt Scenario.two_seconds) 8080
                   (Scenario.boot (ServerSpec.draining (5 * Second) None))))
    = lines
    /\ own_lines lines
       = [line "info" "shutdown signal received" [FString "signal" "terminated"];
          line "error" "graceful shutdown failed"
            [FError (Some Scenario.DeadlineExceeded)]].
Proof.
  destruct (Start_log_lines (http := Scenario.timed) (NewServer tt Scenario.two_seconds)
              8080 (Scenario.boot (ServerSpec.draining (5 * Second) None)))
    as (lines & Hlog & _ & _ & Herror & _).
  exists lines. split; [exact Hlog |].
  exact (Herror SIGTERM (ServerSpec.draining (5 * Second) None)
           (ServerSpec.draining (5 * Second) None) Scenario.DeadlineExceeded
           eq_refl eq_refl).
Defined.

End ServerLaws.

(** ** The logger and the start-up sequence *)

Module LoggerLaws.
Import Errors Go Config Logger.

(** X18. [NewLogger] never returns an error.  The encoder is the JSON one
    exactly in production.  For a configuration that [Validate] accepts,
    the level of the logger is the configured one: the fallback to the
    info level, taken for any other string, is not reached. *)
Theorem NewLogger_level (addr : N) (c : Config) :
  snd (NewLogger (App c)) = None
  /\ (encoder (fst (NewLogger (App c))) = JSONEncoder
      <-> Environment (App c) = "production")
  /\ (Validate addr c = None ->
      Level_String (level (fst (NewLogger (App c)))) = LogLevel (App c))
  /\ (~ In (LogLevel (App c)) ["debug"; "info"; "warn"; "error"] ->
      level (fst (NewLogger (App c))) = InfoLevel).
Proof.
  split; [reflexivity |]. split; [| split].
  - unfold NewLogger. simpl.
    destruct (String.eqb_spec (Environment (App c)) "production"); split;
      (congruence || discriminate).
  - intros Hvalid. apply ConfigLaws.Validate_accepts_iff in Hvalid.
    destruct Hvalid as (_ & _ & Hlevel & _).
    unfold NewLogger. simpl in *.
    destruct Hlevel as [<- | [<- | [<- | [<- | []]]]]; reflexivity.
  - intros Hunknown. unfold NewLogger. simpl.
    destruct (String.eqb_spec (LogLevel (App c)) "debug");
      [exfalso; apply Hunknown; simpl; auto |].
    destruct (String.eqb_spec (LogLevel (App c)) "info"); [reflexivity |].
    destruct (String.eqb_spec (LogLevel (App c)) "warn");
      [exfalso; apply Hunknown; simpl; auto |].
    destruct (String.eqb_spec (LogLevel (App c)) "error");
      [exfalso; apply Hunknown; simpl; auto | reflexivity].
Qed.

(** *** A concrete configuration *)

Definition quiet_production : Config :=
  {| App := {| Environment := "production"; App_Port := 443; LogLevel := "warn" |};
     Database := Scenario.local_db;
     Server := Scenario.two_seconds;
     JWT := {| Secret := "0123456789abcdef0123456789abcdef"; Expiry := 24 * Hour |};
     CORS := {| AllowedOrigins := ["https://shop.example"]; AllowedMethods := ["GET"];
                AllowedHeaders := ["Authorization"] |} |}.

Lemma NewLogger_level_witness :
  Level_String (level (fst (NewLogger (App quiet_production)))) = "warn"
  /\ encoder (fst (NewLogger (App quiet_production))) = JSONEncoder.
Proof.
  destruct (NewLogger_level 0%N quiet_production) as (_ & Hencoder & Hlevel & _).
  split; [exact (Hlevel eq_refl) | exact (proj2 Hencoder eq_refl)].
Defined.

End LoggerLaws.

Module MainLaws.
Import Errors Go Config Main.

(** [NewPostgresPool] always returns; with a pool it has added exactly
    that pool, open, at an address that was free; without one, any pool
    it added is closed. *)
Lemma NewPostgresPool_outcome {DB : Type} {pgx : Database.Pgx DB}
    (ctx : Context) (cfg : DatabaseConfig) (d : Database.World DB) :
  exists (pool : option Database.Pool) (err : option error) (d1 : Database.World DB),
    Database.NewPostgresPool ctx cfg d = (Returns (pool, err), d1) /\
    match pool with
    | Some q =>
        err = None /\ Database.pools d !! q = None /\
        exists c, Database.pools d1 = <[q := PoolSpec.open_pool c]> (Database.pools d)
    | None =>
        err <> None /\
        forall i o, Database.pools d !! i = None -> Database.pools d1 !! i = Some o ->
                    Database.pool_closed o = true
    end.
Proof.
  rewrite PoolSpec.NewPostgresPool_run.
  destruct (Database.pgx_ParseConfig _) as [pc | perr].
  2:{ eexists None, _, _. split; [reflexivity |]. split; [discriminate |].
      intros i o Hfree Ho. cbn [Database.pools] in Ho.
      rewrite Hfree in Ho. discriminate. }
  destruct (Database.pgx_connect _ _ _) as [[cerr|] d1].
  { eexists None, _, _. split; [reflexivity |]. split; [discriminate |].
    intros i o Hfree Ho. cbn [Database.pools] in Ho.
      rewrite Hfree in Ho. discriminate. }
  destruct (Database.pgx_Ping _ _ d1) as [[perr|] d2].
  - eexists None, _, _. split; [reflexivity |]. split; [discriminate |].
    intros i o Hfree Ho. cbn [Database.pools] in Ho.
    destruct (decide (i = fresh (dom (Database.pools d)))) as [-> | Hne].
    + rewrite lookup_insert_eq in Ho. injection Ho as <-. reflexivity.
    + rewrite lookup_insert_ne in Ho by (intros Heq; apply Hne; symmetry; exact Heq).
      rewrite Hfree in Ho. discriminate.
  - eexists (Some _), _, _. split; [reflexivity |]. split; [reflexivity |].
    split; [apply PoolSpec.fresh_pool_unused |]. eexists. reflexivity.
Qed.

Section Laws.
Context {DB : Type} {pgx : Database.Pgx DB} {NET : Type} {http : Server.Http NET}.

Variable Atoi : string -> Z + error.
Variable ParseDuration : string -> Z + error.
Variable TrimSpace : string -> string.
Variable addr : N.

Variables (env : gmap string string) (w : Process DB NET).

(** The log of the process after the first and after the second line of
    [run]. *)
Definition announced (cfg : Config) (n : Server.World NET) : Server.World NET :=
  {| Server.net := Server.net n;
     Server.logged := Server.logged n ++
       [ServerLaws.line "info" "starting application"
          [FString "environment" (Environment (App cfg));
           FInt "port" (App_Port (App cfg))]];
     Server.trace := Server.trace n |}.

Definition connected (cfg : Config) (n : Server.World NET) : Server.World NET :=
  {| Server.net := Server.net n;
     Server.logged := Server.logged n ++
       [ServerLaws.line "info" "database connection established"
          [FString "host" (Host (Config.Database cfg));
           FInt "port" (DB_Port (Config.Database cfg));
           FString "database" (Name (Config.Database cfg))]];
     Server.trace := Server.trace n |}.

(** The server [run] starts, and the world it starts it in. *)
Definition the_server (cfg : Config) : Server.Server Router :=
  Server.NewServer setupRouter (Config.Server cfg).

Definition at_start (cfg : Config) : Server.World NET :=
  connected cfg (announced cfg (server w)).

Lemma run_load_error (err : error) :
  Load Atoi ParseDuration TrimSpace addr env = inr err ->
  run Atoi ParseDuration TrimSpace addr env w
  = (Returns (Some (Errorf "failed to load config: " err "")), w).
Proof. intros Hload. unfold run. rewrite Hload. reflexivity. Qed.

Lemma run_pool_error (cfg : Config) (pool : option Database.Pool) (err : error)
    (d1 : Database.World DB) :
  Load Atoi ParseDuration TrimSpace addr env = inl cfg ->
  Database.NewPostgresPool Background (Config.Database cfg) (database w)
    = (Returns (pool, Some err), d1) ->
  run Atoi ParseDuration TrimSpace addr env w
  = (Returns (Some (Errorf "failed to connect to database: " err "")),
     {| database := d1; server := announced cfg (server w) |}).
Proof.
  intros Hload Hpool. unfold run. rewrite Hload.
  unfold bind, ret, in_server, in_database, Server.logger. simpl.
  rewrite Hpool. reflexivity.
Qed.

Lemma run_started (cfg : Config) (pool : option Database.Pool)
    (d1 : Database.World DB) :
  Load Atoi ParseDuration TrimSpace addr env = inl cfg ->
  Database.NewPostgresPool Background (Config.Database cfg) (database w)
    = (Returns (pool, None), d1) ->
  run Atoi ParseDuration TrimSpace addr env w
  = (fst (Server.Start (the_server cfg) (App_Port (App cfg)) (at_start cfg)),
     {| database := snd (Database.Close pool d1);
        server := snd (Server.Start (the_server cfg) (App_Port (App cfg))
                         (at_start cfg)) |}).
Proof.
  intros Hload Hpool. unfold run. rewrite Hload.
  unfold bind, ret, in_server, in_database, defer_, Server.logger. simpl.
  rewrite Hpool. simpl.
  unfold at_start, connected, announced, the_server, ServerLaws.line. simpl.
  match goal with
  | |- context [Server.Start ?srv ?port ?n0] =>
      destruct (Server.Start srv port n0) as [[r | q |] n]
  end; simpl; destruct pool as [p|]; reflexivity.
Qed.

(** X19. [run] stops at the first step that fails.  If the configuration
    does not load, it touches nothing and returns the error under "failed
    to load config: ".  If the pool cannot be opened, it returns the error
    under "failed to connect to database: ", the server is never started
    (no call into net/http, no signal subscription), and no pool it
    built is left open. *)
Theorem run_fails_fast :
  (forall err : error,
      Load Atoi ParseDuration TrimSpace addr env = inr err ->
      run Atoi ParseDuration TrimSpace addr env w
      = (Returns (Some (Errorf "failed to load config: " err "")), w))
  /\ (forall (cfg : Config) (pool : option Database.Pool) (err : error)
             (d1 : Database.World DB),
      Load Atoi ParseDuration TrimSpace addr env = inl cfg ->
      Database.NewPostgresPool Background (Config.Database cfg) (database w)
        = (Returns (pool, Some err), d1) ->
      fst (run Atoi ParseDuration TrimSpace addr env w)
        = Returns (Some (Errorf "failed to connect to database: " err ""))
      /\ Server.trace (server (snd (run Atoi ParseDuration TrimSpace addr env w)))
         = Server.trace (server w)
      /\ Server.net (server (snd (run Atoi ParseDuration TrimSpace addr env w)))
         = Server.net (server w)
      /\ forall i o,
           Database.pools (database w) !! i = None ->
           Database.pools (database (snd (run Atoi ParseDuration TrimSpace addr env w)))
             !! i = Some o ->
           Database.pool_closed o = true).
Proof.
  split; [exact run_load_error |].
  intros cfg pool err d1 Hload Hpool.
  rewrite (run_pool_error cfg pool err d1 Hload Hpool). simpl.
  split; [reflexivity |]. split; [reflexivity |]. split; [reflexivity |].
  destruct (NewPostgresPool_outcome Background (Config.Database cfg) (database w))
    as (pool' & err' & d1' & Hrun & Hshape).
  rewrite Hpool in Hrun. injection Hrun as <- <- <-.
  destruct pool as [q|]; [destruct Hshape as [[=] _] | apply Hshape].
Qed.

(** X20. Once the pool is open, [run] returns exactly what [Start]
    returns, and whatever that is, the deferred [Close] has run when [run]
    returns: closing the pool is the last call into the database package,
    the pool is closed, and so is every pool that did not exist before. *)
Theorem run_closes_pool (cfg : Config) (q : Database.Pool) (d1 : Database.World DB) :
  Load Atoi ParseDuration TrimSpace addr env = inl cfg ->
  Database.NewPostgresPool Background (Config.Database cfg) (database w)
    = (Returns (Some q, None), d1) ->
  fst (run Atoi ParseDuration TrimSpace addr env w)
    = fst (Server.Start (the_server cfg) (App_Port (App cfg)) (at_start cfg))
  /\ Database.trace (database (snd (run Atoi ParseDuration TrimSpace addr env w)))
     = Database.trace d1 ++ [Database.PoolClose_ q]
  /\ (exists o,
        Database.pools (database (snd (run Atoi ParseDuration TrimSpace addr env w))) !! q
          = Some o /\ Database.pool_closed o = true)
  /\ forall i o,
       Database.pools (database w) !! i = None ->
       Database.pools (database (snd (run Atoi ParseDuration TrimSpace addr env w))) !! i
         = Some o ->
       Database.pool_closed o = true.
Proof.
  intros Hload Hpool. rewrite (run_started cfg (Some q) d1 Hload Hpool). simpl.
  destruct (NewPostgresPool_outcome Background (Config.Database cfg) (database w))
    as (pool' & err' & d1' & Hrun & Hshape).
  rewrite Hpool in Hrun. injection Hrun as <- <- <-.
  destruct Hshape as (_ & Hfree & c & Hpools).
  split; [reflexivity |]. split; [reflexivity |]. split.
  - eexists. rewrite lookup_alter_eq, Hpools, lookup_insert_eq. simpl.
    split; reflexivity.
  - intros i o Hnone. destruct (decide (i = q)) as [-> | Hne].
    + rewrite lookup_alter_eq, Hpools, lookup_insert_eq. simpl.
      intros [= <-]. reflexivity.
    + rewrite lookup_alter_ne, Hpools, lookup_insert_ne by congruence. congruence.
Qed.

(** X21. [main] ends with status 0 and writes nothing to the error stream
    exactly when the configuration loaded, the pool was opened, and
    [Start] returned nil.  Whenever [run] returns an error, [main] ends
    with status 1 and writes "error: ", the text of the error and a line
    break. *)
Theorem main_exit_status :
  (fst (main Atoi ParseDuration TrimSpace addr env w) = Returns (0, "")
   <-> exists (cfg : Config) (pool : option Database.Pool) (d1 : Database.World DB),
         Load Atoi ParseDuration TrimSpace addr env = inl cfg /\
         Database.NewPostgresPool Background (Config.Database cfg) (database w)
           = (Returns (pool, None), d1) /\
         fst (Server.Start (the_server cfg) (App_Port (App cfg)) (at_start cfg))
           = Returns None)
  /\ (forall err : error,
      fst (run Atoi ParseDuration TrimSpace addr env w) = Returns (Some err) ->
      fst (main Atoi ParseDuration TrimSpace addr env w)
        = Returns (1, "error: " +:+ Error err +:+ newline)).
Proof.
  assert (Hmain : forall r : option error,
            fst (run Atoi ParseDuration TrimSpace addr env w) = Returns r ->
            fst (main Atoi ParseDuration TrimSpace addr env w)
            = Returns match r with
                      | Some err => (1, "error: " +:+ Error err +:+ newline)
                      | None => (0, "")
                      end).
  { intros r Hr. unfold main, bind, ret.
    destruct (run Atoi ParseDuration TrimSpace addr env w) as [o w']. simpl in Hr.
    subst o. destruct r; reflexivity. }
  split; [| intros err Hr; exact (Hmain (Some err) Hr)].
  split.
  - destruct (Load Atoi ParseDuration TrimSpace addr env) as [cfg | err] eqn:Hload.
    2:{ rewrite (Hmain (Some (Errorf "failed to load config: " err "")))
          by (rewrite (run_load_error err Hload); reflexivity).
        discriminate. }
    destruct (NewPostgresPool_outcome Background (Config.Database cfg) (database w))
      as (pool & err & d1 & Hpool & Hshape).
    destruct err as [err|].
    + rewrite (Hmain (Some (Errorf "failed to connect to database: " err "")))
        by (rewrite (run_pool_error cfg pool err d1 Hload Hpool); reflexivity).
      discriminate.
    + pose proof (run_started cfg pool d1 Hload Hpool) as Hrun.
      destruct (Server.Start (the_server cfg) (App_Port (App cfg)) (at_start cfg))
        as [[[e|] | p |] n] eqn:Hstart; simpl in Hrun.
      * rewrite (Hmain (Some e)) by (rewrite Hrun; reflexivity). discriminate.
      * intros _. exists cfg, pool, d1. split; [reflexivity |].
        split; [exact Hpool |]. rewrite Hstart. reflexivity.
      * unfold main, bind. rewrite Hrun. discriminate.
      * unfold main, bind. rewrite Hrun. discriminate.
  - intros (cfg & pool & d1 & Hload & Hpool & Hstart).
    rewrite (Hmain None); [reflexivity |].
    rewrite (run_started cfg pool d1 Hload Hpool). exact Hstart.
Qed.

End Laws.

(** *** Concrete runs of the whole process *)

Definition process (d : Scenario.Script) (n : Scenario.Net)
    : Process Scenario.Script Scenario.Net :=
  {| database := Scenario.start d; server := Scenario.boot n |}.

Example clean_run :
  fst (main (pgx := Scenario.scripted true) (http := Scenario.timed)
         Scenario.Atoi Scenario.ParseSeconds (fun s => s) 0%N
         ConfigLaws.only_password
         (process Scenario.all_well (ServerSpec.draining (1 * Second) None)))
  = Returns (0, "").
Proof. reflexivity. Qed.

Example run_without_password :
  fst (main (pgx := Scenario.scripted true) (http := Scenario.timed)
         Scenario.Atoi Scenario.ParseSeconds (fun s => s) 0%N ∅
         (process Scenario.all_well (ServerSpec.draining (1 * Second) None)))
  = Returns (1, "error: failed to load config: invalid configuration: "
                +:+ "configuration validation failed:" +:+ newline
                +:+ "  - DB_PASSWORD is required" +:+ newline).
Proof. reflexivity. Qed.

Lemma run_fails_fast_witness :
  fst (run (pgx := Scenario.scripted true) (http := Scenario.timed)
         Scenario.Atoi Scenario.ParseSeconds (fun s => s) 0%N
         ConfigLaws.only_password
         (process Scenario.ping_fails (ServerSpec.draining (1 * Second) None)))
  = Returns (Some (Errorf "failed to connect to database: "
                     (Errorf "unable to ping database: " Scenario.ErrConnRefused "") ""))
  /\ Server.trace
       (server (snd (run (pgx := Scenario.scripted true) (http := Scenario.timed)
                       Scenario.Atoi Scenario.ParseSeconds (fun s => s) 0%N
                       ConfigLaws.only_password
                       (process Scenario.ping_fails
                          (ServerSpec.draining (1 * Second) None)))))
     = [].
Proof.
  destruct (proj2 (run_fails_fast (pgx := Scenario.scripted true) (http := Scenario.timed)
                     Scenario.Atoi Scenario.ParseSeconds (fun s => s) 0%N
                     ConfigLaws.only_password
                     (process Scenario.ping_fails (ServerSpec.draining (1 * Second) None)))
              _ _ _ _ eq_refl eq_refl)
    as (Hret & Htrace & _).
  split; [exact Hret | exact Htrace].
Defined.

Lemma run_closes_pool_witness :
  exists o : Database.PoolObj,
    Database.pools
      (database (snd (run (pgx := Scenario.scripted true) (http := Scenario.timed)
                        Scenario.Atoi Scenario.ParseSeconds (fun s => s) 0%N
                        ConfigLaws.only_password
                        (process Scenario.all_well
                           (ServerSpec.draining (5 * Second) None)))))
      !! 1%positive = Some o
    /\ Database.pool_closed o = true.
Proof.
  exact (proj1 (proj2 (proj2
           (run_closes_pool (pgx := Scenario.scripted true) (http := Scenario.timed)
              Scenario.Atoi Scenario.ParseSeconds (fun s => s) 0%N
              ConfigLaws.only_password
              (process Scenario.all_well (ServerSpec.draining (5 * Second) None))
              _ 1%positive _ eq_refl eq_refl)))).
Defined.

Lemma main_exit_status_witness :
  fst (main (pgx := Scenario.scripted true) (http := Scenario.timed)
         Scenario.Atoi Scenario.ParseSeconds (fun s => s) 0%N
         ConfigLaws.only_password
         (process Scenario.all_well (ServerSpec.draining (60 * Second) None)))
  = Returns (1, "error: graceful shutdown error: context deadline exceeded" +:+ newline).
Proof.
  apply (proj2 (main_exit_status (pgx := Scenario.scripted true) (http := Scenario.timed)
                  Scenario.Atoi Scenario.ParseSeconds (fun s => s) 0%N
                  ConfigLaws.only_password
                  (process Scenario.all_well (ServerSpec.draining (60 * Second) None)))
           (Errorf "graceful shutdown error: " Scenario.DeadlineExceeded "")).
  vm_compute. reflexivity.
Defined.

End MainLaws.
